(** * bsec_py_wrapper.c: the BSEC wrapper exposed to the Python host

    A shallow embedding of [src/bsec/rpi/bin/bsec_py_wrapper.c].  The file
    is marshalling code around the closed vendor library: [py_bsec_init]
    negotiates a subscription over three sample-rate tiers and
    [py_bsec_do_steps] feeds one sample quadruple to the estimator and copies
    the outputs back through four pointers.

    The vendor library is opaque, so it appears here as an interface
    ([BsecLibrary]) over an abstract engine state; every call into it, with
    the arguments handed over and the status that came back, is recorded in a
    trace together with the lines written by [printf]. *)

From Stdlib Require Import ZArith List Bool Lia QArith.
From Stdlib Require Import Floats.SpecFloat.
From stdpp Require Import base list.

Local Open Scope Z_scope.

(** ** C scalar types *)

(** [float] is IEEE-754 binary32: 24 bits of precision, exponents below 128. *)
Definition float32 : Type := spec_float.
Definition f32_prec : Z := 24.
Definition f32_emax : Z := 128.

Definition f32_mul (x y : float32) : float32 := SFmul f32_prec f32_emax x y.
Definition f32_div (x y : float32) : float32 := SFdiv f32_prec f32_emax x y.
Definition f32_valid (x : float32) : bool := valid_binary f32_prec f32_emax x.

(** The binary32 value nearest to [m * 2^e]; used for the literals. *)
Definition f32_lit (m e : Z) : float32 := binary_normalize f32_prec f32_emax m e false.

Definition f32_100_0 : float32 := Eval vm_compute in f32_lit 100 0.   (* 100.0f *)
Definition f32_25_0 : float32 := Eval vm_compute in f32_lit 25 0.     (* 25.0f *)
Definition f32_400_0 : float32 := Eval vm_compute in f32_lit 400 0.   (* 400.0f *)
Definition f32_0_5 : float32 := Eval vm_compute in f32_lit 1 (-1).    (* 0.5f *)

Definition f32_is_finite (x : float32) : bool :=
  match x with
  | S754_zero _ | S754_finite _ _ _ => true
  | _ => false
  end.

(** The real number a finite binary32 value stands for, as a rational. *)
Definition f32_to_Q (x : float32) : option Q :=
  match x with
  | S754_zero _ => Some 0%Q
  | S754_finite s m e =>
      let v := (inject_Z (Zpos m) * Qpower 2 e)%Q in
      Some (if s then Qopp v else v)
  | _ => None
  end.

(** ** Types of the vendor headers

    [inc/bsec_datatypes.h] is not part of the sources; the enumerators and
    structure fields below are the ones the wrapper names. *)

(** [bsec_library_return_t], cast to [int] wherever the wrapper uses it. *)
Definition bsec_library_return_t : Type := Z.

(** Modelled from the spec: the success status is the integer 0 ("returns 0
    on success, else the engine's non-zero status code"); the enumerator
    itself is declared in the missing [inc/bsec_datatypes.h]. *)
Definition BSEC_OK : bsec_library_return_t := 0.

(** [bsec_virtual_sensor_t]: the eight outputs the wrapper subscribes to.
    [BSEC_OUTPUT_other] stands for any identifier the wrapper does not name
    (the remaining enumerators, and the 0 of a zero-initialised static). *)
Inductive bsec_virtual_sensor_t : Type :=
| BSEC_OUTPUT_IAQ
| BSEC_OUTPUT_STATIC_IAQ
| BSEC_OUTPUT_CO2_EQUIVALENT
| BSEC_OUTPUT_BREATH_VOC_EQUIVALENT
| BSEC_OUTPUT_COMPENSATED_GAS
| BSEC_OUTPUT_GAS_PERCENTAGE
| BSEC_OUTPUT_STABILIZATION_STATUS
| BSEC_OUTPUT_RUN_IN_STATUS
| BSEC_OUTPUT_other (raw : Z).

(** [bsec_physical_sensor_t]: the four inputs the wrapper feeds. *)
Inductive bsec_physical_sensor_t : Type :=
| BSEC_INPUT_TEMPERATURE
| BSEC_INPUT_HUMIDITY
| BSEC_INPUT_PRESSURE
| BSEC_INPUT_GASRESISTOR.

(** [bsec_sensor_configuration_t] *)
Record bsec_sensor_configuration_t : Type := mk_sensor_configuration {
  cfg_sensor_id : bsec_virtual_sensor_t;
  cfg_sample_rate : float32
}.

Definition set_sensor_id (id : bsec_virtual_sensor_t)
    (c : bsec_sensor_configuration_t) : bsec_sensor_configuration_t :=
  mk_sensor_configuration id (cfg_sample_rate c).

Definition set_sample_rate (r : float32)
    (c : bsec_sensor_configuration_t) : bsec_sensor_configuration_t :=
  mk_sensor_configuration (cfg_sensor_id c) r.

(** [bsec_input_t].  Modelled from the spec: the time stamp is an unsigned
    64-bit count of nanoseconds, the type of the wrapper's [timestamp_ns]. *)
Record bsec_input_t : Type := mk_input {
  in_sensor_id : bsec_physical_sensor_t;
  in_signal : float32;
  in_time_stamp : Z
}.

(** [bsec_output_t], restricted to the fields the wrapper reads. *)
Record bsec_output_t : Type := mk_output {
  out_sensor_id : bsec_virtual_sensor_t;
  out_signal : float32;
  out_accuracy : Z
}.

(** ** The vendor library

    The four entry points the wrapper calls, as transitions of an abstract
    engine state, and the constants of the missing headers
    ([inc/bsec_datatypes.h], [config/bsec_iaq.h]).

    Pointer arguments the library writes through are returned:
    [bsec_update_subscription] takes the count stored in
    [*n_required_sensor_settings] and returns the filled settings and the new
    count; [bsec_do_steps] takes the count stored in [*n_outputs] and returns
    the output array and the new count. *)
Class BsecLibrary (E : Type) : Type := {
  BSEC_MAX_PHYSICAL_SENSOR : Z;
  BSEC_SAMPLE_RATE_LP : float32;
  BSEC_SAMPLE_RATE_SCAN : float32;
  BSEC_SAMPLE_RATE_ULP : float32;
  bsec_config_iaq : list Z;
  bsec_init : E -> bsec_library_return_t * E;
  bsec_set_configuration :
    list Z -> Z -> option (list Z) -> Z -> E -> bsec_library_return_t * E;
  bsec_update_subscription :
    list bsec_sensor_configuration_t -> Z -> Z -> E ->
    (bsec_library_return_t * list bsec_sensor_configuration_t * Z) * E;
  bsec_do_steps :
    list bsec_input_t -> Z -> Z -> E ->
    (bsec_library_return_t * list bsec_output_t * Z) * E
}.

(** ** Observable behaviour *)

(** One constructor per [printf] of the wrapper, with its arguments. *)
Inductive printf_line : Type :=
| Msg_basic_init_successful
| Msg_config_failed (status : Z)
| Msg_config_loaded
| Msg_LP_result (status : Z)
| Msg_LP_success
| Msg_LP_failed_trying_SCAN
| Msg_SCAN_result (status : Z)
| Msg_SCAN_success
| Msg_SCAN_failed_falling_back_to_ULP
| Msg_BSEC_result (status : Z) (actual_outputs : Z)
| Msg_final_values (iaq : float32) (acc : Z) (co2 voc : float32).

(** A library call with the arguments handed over and what came back. *)
Inductive event : Type :=
| Call_bsec_init (ret : bsec_library_return_t)
| Call_bsec_set_configuration
    (blob : list Z) (n_blob : Z) (work : option (list Z)) (n_work : Z)
    (ret : bsec_library_return_t)
| Call_bsec_update_subscription
    (requested : list bsec_sensor_configuration_t) (n_requested : Z)
    (n_required_in : Z) (ret : bsec_library_return_t) (n_required_out : Z)
| Call_bsec_do_steps
    (inputs : list bsec_input_t) (n_inputs : Z) (n_outputs_in : Z)
    (ret : bsec_library_return_t) (outputs : list bsec_output_t)
    (n_outputs_out : Z)
| Printf (line : printf_line).

(** The [bsec_update_subscription] calls of a trace, in order. *)
Record subscription_call : Type := mk_subscription_call {
  sub_requested : list bsec_sensor_configuration_t;
  sub_n_requested : Z;
  sub_n_required_in : Z;
  sub_status : bsec_library_return_t;
  sub_n_required_out : Z
}.

Definition subscription_calls (evs : list event) : list subscription_call :=
  flat_map (fun ev =>
    match ev with
    | Call_bsec_update_subscription requested n cap st n' =>
        [mk_subscription_call requested n cap st n']
    | _ => []
    end) evs.

(** The [bsec_do_steps] calls of a trace, in order. *)
Record step_call : Type := mk_step_call {
  step_inputs : list bsec_input_t;
  step_n_inputs : Z;
  step_n_outputs_in : Z;
  step_status : bsec_library_return_t;
  step_outputs : list bsec_output_t;
  step_n_outputs_out : Z
}.

Definition step_calls (evs : list event) : list step_call :=
  flat_map (fun ev =>
    match ev with
    | Call_bsec_do_steps inputs n_in n_out st outputs n_out' =>
        [mk_step_call inputs n_in n_out st outputs n_out']
    | _ => []
    end) evs.

(** The two lines that announce an accepted tier. *)
Definition is_success_line (ev : event) : bool :=
  match ev with
  | Printf Msg_LP_success | Printf Msg_SCAN_success => true
  | _ => false
  end.

(** Everything [py_bsec_init] does about the configuration blob. *)
Definition is_config_event (ev : event) : bool :=
  match ev with
  | Call_bsec_set_configuration _ _ _ _ _
  | Printf (Msg_config_failed _) | Printf Msg_config_loaded => true
  | _ => false
  end.

(** The four cells behind the out-pointers of [py_bsec_do_steps]. *)
Record out_params : Type := mk_out_params {
  iaq : float32;
  iaq_accuracy : Z;
  co2_equivalent : float32;
  breath_voc_equivalent : float32
}.

Section Wrapper.

Context {E : Type} `{Lib : BsecLibrary E}.

(** The process state: the engine, the two file-scope statics and what
    has been observed so far (oldest event first). *)
Record state : Type := mk_state {
  engine : E;
  requested_virtual_sensors : list bsec_sensor_configuration_t;
  n_requested_virtual_sensors : Z;
  trace : list event
}.

(** State passing; a computation whose behaviour is undefined yields
    [None] together with the state reached up to that point. *)
Definition M (A : Type) : Type := state -> option A * state.

#[global] Instance M_ret : MRet M := fun A a s => (Some a, s).

#[global] Instance M_bind : MBind M := fun A B k m s =>
  match m s with
  | (Some a, s') => k a s'
  | (None, s') => (None, s')
  end.

Definition undefined {A} : M A := fun s => (None, s).

(** What a computation returns, the state it leaves and the events it
    adds to the trace. *)
Definition result_of {A} (m : M A) (s : state) : option A := fst (m s).
Definition state_after {A} (m : M A) (s : state) : state := snd (m s).
Definition events_of {A} (m : M A) (s : state) : list event :=
  drop (length (trace s)) (trace (snd (m s))).

Definition emit (ev : event) : M unit :=
  fun s => (Some tt, mk_state (engine s) (requested_virtual_sensors s)
                       (n_requested_virtual_sensors s) (trace s ++ [ev])).

Definition printf (l : printf_line) : M unit := emit (Printf l).

(** [requested_virtual_sensors[i].sensor_id = id;] *)
Definition store_sensor_id (i : nat) (id : bsec_virtual_sensor_t) : M unit :=
  fun s => (Some tt, mk_state (engine s)
                       (alter (set_sensor_id id) i (requested_virtual_sensors s))
                       (n_requested_virtual_sensors s) (trace s)).

(** [requested_virtual_sensors[i].sample_rate = r;] *)
Definition store_sample_rate (i : nat) (r : float32) : M unit :=
  fun s => (Some tt, mk_state (engine s)
                       (alter (set_sample_rate r) i (requested_virtual_sensors s))
                       (n_requested_virtual_sensors s) (trace s)).

(** [n_requested_virtual_sensors = n;] *)
Definition store_n_requested (n : Z) : M unit :=
  fun s => (Some tt, mk_state (engine s) (requested_virtual_sensors s) n (trace s)).

Definition load_requested : M (list bsec_sensor_configuration_t) :=
  fun s => (Some (requested_virtual_sensors s), s).

Definition load_n_requested : M Z :=
  fun s => (Some (n_requested_virtual_sensors s), s).

(** Run one library entry point on the engine. *)
Definition library_call {A} (f : E -> A * E) : M A :=
  fun s => let '(a, e') := f (engine s) in
           (Some a, mk_state e' (requested_virtual_sensors s)
                      (n_requested_virtual_sensors s) (trace s)).

Definition call_bsec_init : M bsec_library_return_t :=
  st ← library_call bsec_init;
  emit (Call_bsec_init st);;
  mret st.

Definition call_bsec_set_configuration
    (blob : list Z) (n_blob : Z) (work : option (list Z)) (n_work : Z)
    : M bsec_library_return_t :=
  st ← library_call (bsec_set_configuration blob n_blob work n_work);
  emit (Call_bsec_set_configuration blob n_blob work n_work st);;
  mret st.

(** [bsec_update_subscription(requested_virtual_sensors,
    n_requested_virtual_sensors, required_sensor_settings,
    &n_required_sensor_settings)]: reads the two statics, hands over the
    count currently stored in the local, and yields the status with the
    count the library left there. *)
Definition call_bsec_update_subscription (n_required_sensor_settings : Z)
    : M (bsec_library_return_t * Z) :=
  requested ← load_requested;
  n_requested ← load_n_requested;
  r ← library_call
        (bsec_update_subscription requested n_requested
           n_required_sensor_settings);
  let '(st, _, n_required') := r in
  emit (Call_bsec_update_subscription requested n_requested
          n_required_sensor_settings st n_required');;
  mret (st, n_required').

(** [bsec_do_steps(inputs, n_inputs, outputs, &n_outputs)] on the local
    [bsec_output_t outputs[8]]: the array holds 8 slots, whatever the
    library reports in [n_outputs]. *)
Definition call_bsec_do_steps
    (inputs : list bsec_input_t) (n_inputs : Z) (n_outputs : Z)
    : M (bsec_library_return_t * list bsec_output_t * Z) :=
  r ← library_call (bsec_do_steps inputs n_inputs n_outputs);
  let '(st, outputs, n_outputs') := r in
  let outputs := take 8 outputs in
  emit (Call_bsec_do_steps inputs n_inputs n_outputs st outputs n_outputs');;
  mret (st, outputs, n_outputs').

(** *** [py_bsec_init] (lines 13-116) *)
Definition py_bsec_init : M Z :=
  bsec_status ← call_bsec_init;
  if negb (bsec_status =? BSEC_OK) then mret bsec_status else
  printf Msg_basic_init_successful;;
  bsec_status ← call_bsec_set_configuration
                  bsec_config_iaq (Z.of_nat (length bsec_config_iaq)) None 0;
  (if negb (bsec_status =? BSEC_OK)
   then printf (Msg_config_failed bsec_status)
   else printf Msg_config_loaded);;
  store_sensor_id 0 BSEC_OUTPUT_IAQ;;
  store_sample_rate 0 BSEC_SAMPLE_RATE_LP;;
  store_sensor_id 1 BSEC_OUTPUT_STATIC_IAQ;;
  store_sample_rate 1 BSEC_SAMPLE_RATE_LP;;
  store_sensor_id 2 BSEC_OUTPUT_CO2_EQUIVALENT;;
  store_sample_rate 2 BSEC_SAMPLE_RATE_LP;;
  store_sensor_id 3 BSEC_OUTPUT_BREATH_VOC_EQUIVALENT;;
  store_sample_rate 3 BSEC_SAMPLE_RATE_LP;;
  store_sensor_id 4 BSEC_OUTPUT_COMPENSATED_GAS;;
  store_sample_rate 4 BSEC_SAMPLE_RATE_LP;;
  store_sensor_id 5 BSEC_OUTPUT_GAS_PERCENTAGE;;
  store_sample_rate 5 BSEC_SAMPLE_RATE_LP;;
  store_sensor_id 6 BSEC_OUTPUT_STABILIZATION_STATUS;;
  store_sample_rate 6 BSEC_SAMPLE_RATE_LP;;
  store_sensor_id 7 BSEC_OUTPUT_RUN_IN_STATUS;;
  store_sample_rate 7 BSEC_SAMPLE_RATE_LP;;
  store_n_requested 8;;
  let n_required_sensor_settings := BSEC_MAX_PHYSICAL_SENSOR in
  r ← call_bsec_update_subscription n_required_sensor_settings;
  let '(bsec_status, n_required_sensor_settings) := r in
  printf (Msg_LP_result bsec_status);;
  if bsec_status =? BSEC_OK then
    printf Msg_LP_success;; mret 0
  else
  printf Msg_LP_failed_trying_SCAN;;
  store_sample_rate 0 BSEC_SAMPLE_RATE_SCAN;;
  store_sample_rate 1 BSEC_SAMPLE_RATE_SCAN;;
  store_sample_rate 2 BSEC_SAMPLE_RATE_SCAN;;
  store_sample_rate 3 BSEC_SAMPLE_RATE_SCAN;;
  store_sample_rate 4 BSEC_SAMPLE_RATE_SCAN;;
  store_sample_rate 5 BSEC_SAMPLE_RATE_SCAN;;
  store_sample_rate 6 BSEC_SAMPLE_RATE_SCAN;;
  store_sample_rate 7 BSEC_SAMPLE_RATE_SCAN;;
  r ← call_bsec_update_subscription n_required_sensor_settings;
  let '(bsec_status, n_required_sensor_settings) := r in
  printf (Msg_SCAN_result bsec_status);;
  if bsec_status =? BSEC_OK then
    printf Msg_SCAN_success;; mret 0
  else
  printf Msg_SCAN_failed_falling_back_to_ULP;;
  store_sample_rate 0 BSEC_SAMPLE_RATE_ULP;;
  store_sample_rate 1 BSEC_SAMPLE_RATE_ULP;;
  store_sample_rate 2 BSEC_SAMPLE_RATE_ULP;;
  store_sample_rate 3 BSEC_SAMPLE_RATE_ULP;;
  store_sample_rate 4 BSEC_SAMPLE_RATE_ULP;;
  store_sample_rate 5 BSEC_SAMPLE_RATE_ULP;;
  store_sample_rate 6 BSEC_SAMPLE_RATE_ULP;;
  store_sample_rate 7 BSEC_SAMPLE_RATE_ULP;;
  r ← call_bsec_update_subscription n_required_sensor_settings;
  let '(bsec_status, _) := r in
  mret bsec_status.

(** *** [py_bsec_do_steps] (lines 128-189) *)

(** The [switch (outputs[i].sensor_id)] of the loop body; there is no
    [default] label. *)
Definition switch_sensor_id (out : bsec_output_t) (o : out_params) : out_params :=
  match out_sensor_id out with
  | BSEC_OUTPUT_IAQ =>
      mk_out_params (out_signal out) (out_accuracy out)
        (co2_equivalent o) (breath_voc_equivalent o)
  | BSEC_OUTPUT_CO2_EQUIVALENT =>
      mk_out_params (iaq o) (iaq_accuracy o)
        (out_signal out) (breath_voc_equivalent o)
  | BSEC_OUTPUT_BREATH_VOC_EQUIVALENT =>
      mk_out_params (iaq o) (iaq_accuracy o)
        (co2_equivalent o) (out_signal out)
  | _ => o
  end.

(** [for (uint8_t i = 0; i < n_outputs; i++)], with [count] iterations
    left at index [i]; [n_outputs] is a [uint8_t] as well, so [i] reaches it
    without wrapping.  Reading a slot the array does not have is
    undefined. *)
Fixpoint for_outputs (count : nat) (i : nat) (outputs : list bsec_output_t)
    (o : out_params) : option out_params :=
  match count with
  | O => Some o
  | S count' =>
      match outputs !! i with
      | Some out => for_outputs count' (S i) outputs (switch_sensor_id out o)
      | None => None
      end
  end.

Definition py_bsec_do_steps
    (temperature humidity pressure gas_resistance : float32)
    (timestamp_ns : Z) (o : out_params) : M (Z * out_params) :=
  let inputs :=
    [ mk_input BSEC_INPUT_TEMPERATURE temperature timestamp_ns;
      mk_input BSEC_INPUT_HUMIDITY humidity timestamp_ns;
      mk_input BSEC_INPUT_PRESSURE (f32_mul pressure f32_100_0) timestamp_ns;
      mk_input BSEC_INPUT_GASRESISTOR gas_resistance timestamp_ns ] in
  let n_inputs := 4 in
  let n_outputs := 8 in
  r ← call_bsec_do_steps inputs n_inputs n_outputs;
  let '(bsec_status, outputs, n_outputs) := r in
  printf (Msg_BSEC_result bsec_status n_outputs);;
  if negb (bsec_status =? BSEC_OK) then mret (bsec_status, o) else
  let o := mk_out_params f32_25_0 0 f32_400_0 f32_0_5 in
  match for_outputs (Z.to_nat n_outputs) 0 outputs o with
  | None => undefined
  | Some o =>
      printf (Msg_final_values (iaq o) (iaq_accuracy o)
                (co2_equivalent o) (breath_voc_equivalent o));;
      mret (0, o)
  end.

End Wrapper.

Arguments state E : clear implicits.
Arguments M E A : clear implicits.

(** The statics as the loader leaves them (lines 10-11): a zeroed array and
    [n_requested_virtual_sensors = 1]. *)
Definition initial_state {E : Type} (e : E) : state E :=
  mk_state e
    (replicate 8 (mk_sensor_configuration (BSEC_OUTPUT_other 0) (S754_zero false)))
    1 [].

(** ** The subscription bundle *)

Definition bundle_ids : list bsec_virtual_sensor_t :=
  [ BSEC_OUTPUT_IAQ; BSEC_OUTPUT_STATIC_IAQ; BSEC_OUTPUT_CO2_EQUIVALENT;
    BSEC_OUTPUT_BREATH_VOC_EQUIVALENT; BSEC_OUTPUT_COMPENSATED_GAS;
    BSEC_OUTPUT_GAS_PERCENTAGE; BSEC_OUTPUT_STABILIZATION_STATUS;
    BSEC_OUTPUT_RUN_IN_STATUS ].

(** The eight requests, all at one sample rate. *)
Definition bundle (rate : float32) : list bsec_sensor_configuration_t :=
  map (fun id => mk_sensor_configuration id rate) bundle_ids.

(** The rate tiers in the order the wrapper tries them. *)
Definition tiers {E : Type} `{Lib : BsecLibrary E} : list float32 :=
  [BSEC_SAMPLE_RATE_LP; BSEC_SAMPLE_RATE_SCAN; BSEC_SAMPLE_RATE_ULP].

(** ** The specification's reading of the output copy

    What the specification says of a successful step: every value starts
    from its default and is overwritten by the returned output that matches
    its sensor identifier (the latest one, should several match). *)

Definition sensor_id_eqb (a b : bsec_virtual_sensor_t) : bool :=
  match a, b with
  | BSEC_OUTPUT_IAQ, BSEC_OUTPUT_IAQ
  | BSEC_OUTPUT_STATIC_IAQ, BSEC_OUTPUT_STATIC_IAQ
  | BSEC_OUTPUT_CO2_EQUIVALENT, BSEC_OUTPUT_CO2_EQUIVALENT
  | BSEC_OUTPUT_BREATH_VOC_EQUIVALENT, BSEC_OUTPUT_BREATH_VOC_EQUIVALENT
  | BSEC_OUTPUT_COMPENSATED_GAS, BSEC_OUTPUT_COMPENSATED_GAS
  | BSEC_OUTPUT_GAS_PERCENTAGE, BSEC_OUTPUT_GAS_PERCENTAGE
  | BSEC_OUTPUT_STABILIZATION_STATUS, BSEC_OUTPUT_STABILIZATION_STATUS
  | BSEC_OUTPUT_RUN_IN_STATUS, BSEC_OUTPUT_RUN_IN_STATUS => true
  | BSEC_OUTPUT_other x, BSEC_OUTPUT_other y => x =? y
  | _, _ => false
  end.

(** The latest of the returned outputs carrying identifier [id]. *)
Definition returned_for (id : bsec_virtual_sensor_t) (returned : list bsec_output_t)
    : option bsec_output_t :=
  find (fun out => sensor_id_eqb (out_sensor_id out) id) (rev returned).

Definition defaults : out_params := mk_out_params f32_25_0 0 f32_400_0 f32_0_5.

Definition overwrite_defaults (returned : list bsec_output_t) : out_params :=
  mk_out_params
    (from_option out_signal (iaq defaults) (returned_for BSEC_OUTPUT_IAQ returned))
    (from_option out_accuracy (iaq_accuracy defaults)
       (returned_for BSEC_OUTPUT_IAQ returned))
    (from_option out_signal (co2_equivalent defaults)
       (returned_for BSEC_OUTPUT_CO2_EQUIVALENT returned))
    (from_option out_signal (breath_voc_equivalent defaults)
       (returned_for BSEC_OUTPUT_BREATH_VOC_EQUIVALENT returned)).

(** ** The run of [py_bsec_init], written out *)

Section Flat.

Context {E : Type} `{Lib : BsecLibrary E}.

(** The line printed after the configuration load. *)
Definition config_line (c : Z) : printf_line :=
  if negb (c =? BSEC_OK) then Msg_config_failed c else Msg_config_loaded.

(** [py_bsec_init] with the state threading written out: the returned
    value, the engine and the statics it leaves, and the events it adds. *)
Definition py_bsec_init_flat (s : state E)
    : Z * E * list bsec_sensor_configuration_t * Z * list event :=
  let '(st0, e0) := bsec_init (engine s) in
  if negb (st0 =? BSEC_OK) then
    (st0, e0, requested_virtual_sensors s, n_requested_virtual_sensors s,
     [Call_bsec_init st0])
  else
  let n_blob := Z.of_nat (length bsec_config_iaq) in
  let '(c, e1) := bsec_set_configuration bsec_config_iaq n_blob None 0 e0 in
  let t1 := [Call_bsec_init st0; Printf Msg_basic_init_successful;
             Call_bsec_set_configuration bsec_config_iaq n_blob None 0 c;
             Printf (config_line c)] in
  let '(st1, _, n1, e2) :=
    bsec_update_subscription (bundle BSEC_SAMPLE_RATE_LP) 8
      BSEC_MAX_PHYSICAL_SENSOR e1 in
  let t2 := t1 ++ [Call_bsec_update_subscription (bundle BSEC_SAMPLE_RATE_LP) 8
                     BSEC_MAX_PHYSICAL_SENSOR st1 n1;
                   Printf (Msg_LP_result st1)] in
  if st1 =? BSEC_OK then
    (0, e2, bundle BSEC_SAMPLE_RATE_LP, 8, t2 ++ [Printf Msg_LP_success])
  else
  let '(st2, _, n2, e3) :=
    bsec_update_subscription (bundle BSEC_SAMPLE_RATE_SCAN) 8 n1 e2 in
  let t3 := t2 ++ [Printf Msg_LP_failed_trying_SCAN;
                   Call_bsec_update_subscription (bundle BSEC_SAMPLE_RATE_SCAN) 8
                     n1 st2 n2;
                   Printf (Msg_SCAN_result st2)] in
  if st2 =? BSEC_OK then
    (0, e3, bundle BSEC_SAMPLE_RATE_SCAN, 8, t3 ++ [Printf Msg_SCAN_success])
  else
  let '(st3, _, n3, e4) :=
    bsec_update_subscription (bundle BSEC_SAMPLE_RATE_ULP) 8 n2 e3 in
  (st3, e4, bundle BSEC_SAMPLE_RATE_ULP, 8,
   t3 ++ [Printf Msg_SCAN_failed_falling_back_to_ULP;
          Call_bsec_update_subscription (bundle BSEC_SAMPLE_RATE_ULP) 8
            n2 st3 n3]).

(** The loop of lines 170-183 over the outputs the library returned. *)
Definition copy_outputs (returned : list bsec_output_t) (o : out_params)
    : out_params :=
  fold_left (fun o out => switch_sensor_id out o) returned o.

(** The array [inputs] of [py_bsec_do_steps] (lines 133-150). *)
Definition marshalled_inputs
    (temperature humidity pressure gas_resistance : float32)
    (timestamp_ns : Z) : list bsec_input_t :=
  [ mk_input BSEC_INPUT_TEMPERATURE temperature timestamp_ns;
    mk_input BSEC_INPUT_HUMIDITY humidity timestamp_ns;
    mk_input BSEC_INPUT_PRESSURE (f32_mul pressure f32_100_0) timestamp_ns;
    mk_input BSEC_INPUT_GASRESISTOR gas_resistance timestamp_ns ].

(** [py_bsec_do_steps] with the state threading written out. *)
Definition py_bsec_do_steps_flat
    (temperature humidity pressure gas_resistance : float32)
    (timestamp_ns : Z) (o : out_params) (s : state E)
    : option (Z * out_params) * E * list event :=
  let inputs :=
    marshalled_inputs temperature humidity pressure gas_resistance
      timestamp_ns in
  let '(st, outs, n, e') := bsec_do_steps inputs 4 8 (engine s) in
  let t1 := [Call_bsec_do_steps inputs 4 8 st (take 8 outs) n;
             Printf (Msg_BSEC_result st n)] in
  if negb (st =? BSEC_OK) then (Some (st, o), e', t1) else
  match for_outputs (Z.to_nat n) 0 (take 8 outs) defaults with
  | None => (None, e', t1)
  | Some o' =>
      (Some (0, o'), e',
       t1 ++ [Printf (Msg_final_values (iaq o') (iaq_accuracy o')
                        (co2_equivalent o') (breath_voc_equivalent o'))])
  end.

End Flat.

(** ** Libraries to run the wrapper against *)

(** [with_config_status c L] is the library [L] except that its
    configuration load reports status [c]; the engine moves as under [L]. *)
Definition with_config_status {E : Type} (c : bsec_library_return_t)
    (L : BsecLibrary E) : BsecLibrary E :=
  {| BSEC_MAX_PHYSICAL_SENSOR := @BSEC_MAX_PHYSICAL_SENSOR E L;
     BSEC_SAMPLE_RATE_LP := @BSEC_SAMPLE_RATE_LP E L;
     BSEC_SAMPLE_RATE_SCAN := @BSEC_SAMPLE_RATE_SCAN E L;
     BSEC_SAMPLE_RATE_ULP := @BSEC_SAMPLE_RATE_ULP E L;
     bsec_config_iaq := @bsec_config_iaq E L;
     bsec_init := @bsec_init E L;
     bsec_set_configuration := fun blob n work nw e =>
       (c, snd (@bsec_set_configuration E L blob n work nw e));
     bsec_update_subscription := @bsec_update_subscription E L;
     bsec_do_steps := @bsec_do_steps E L |}.

(** A scripted engine: it answers the calls it receives with the statuses of
    [script], in order (0 once the script is used up); a rejected or accepted
    subscription leaves no required settings and stores the count 0; a step
    returns the array [scripted_outputs] and the count [scripted_n_outputs]. *)
Record scripted : Type := mk_scripted {
  script : list Z;
  scripted_outputs : list bsec_output_t;
  scripted_n_outputs : Z
}.

Definition next_status (e : scripted) : Z * scripted :=
  (hd 0 (script e),
   mk_scripted (tl (script e)) (scripted_outputs e) (scripted_n_outputs e)).

Definition scripted_library : BsecLibrary scripted :=
  {| BSEC_MAX_PHYSICAL_SENSOR := 8;
     BSEC_SAMPLE_RATE_LP := f32_div (f32_lit 1 0) (f32_lit 3 0);
     BSEC_SAMPLE_RATE_SCAN := f32_div (f32_lit 1 0) (f32_lit 18 0);
     BSEC_SAMPLE_RATE_ULP := f32_div (f32_lit 1 0) (f32_lit 300 0);
     bsec_config_iaq := [0; 8; 4; 1];
     bsec_init := next_status;
     bsec_set_configuration := fun _ _ _ _ => next_status;
     bsec_update_subscription := fun _ _ _ e =>
       let '(st, e') := next_status e in (st, [], 0, e');
     bsec_do_steps := fun _ _ _ e =>
       let '(st, e') := next_status e in
       (st, scripted_outputs e, scripted_n_outputs e, e') |}.

(** A freshly loaded process over the scripted engine. *)
Definition scripted_state (statuses : list Z) (outputs : list bsec_output_t)
    (n_outputs : Z) : state scripted :=
  initial_state (mk_scripted statuses outputs n_outputs).

(** Sample values for the step: 22.5, 45.0, 1013.25, 50000.0 and the
    binary32 value nearest to 1013.2. *)
Definition f32_22_5 : float32 := Eval vm_compute in f32_lit 45 (-1).
Definition f32_45_0 : float32 := Eval vm_compute in f32_lit 45 0.
Definition f32_1013_25 : float32 := Eval vm_compute in f32_lit 4053 (-2).
Definition f32_50000_0 : float32 := Eval vm_compute in f32_lit 50000 0.
Definition f32_42_0 : float32 := Eval vm_compute in f32_lit 42 0.
Definition f32_1013_2 : float32 :=
  Eval vm_compute in f32_div (f32_lit 10132 0) (f32_lit 10 0).

(** Caller-side sentinels for the four out-cells. *)
Definition sentinels : out_params :=
  mk_out_params (f32_lit (-1) 0) (-1) (f32_lit (-1) 0) (f32_lit (-1) 0).

(** Whether [x], as a real number, is exactly 100 times [p]. *)
Definition exactly_100_times (p x : float32) : bool :=
  match f32_to_Q p, f32_to_Q x with
  | Some qp, Some qx => Qeq_bool qx (100 * qp)
  | _, _ => false
  end.

(** ** The version query and further observers *)

(** [bsec_version_t]: four [uint8_t] fields. *)
Record bsec_version_t : Type := mk_version {
  ver_major : Z;
  ver_minor : Z;
  ver_major_bugfix : Z;
  ver_minor_bugfix : Z
}.

(** The fifth entry point the wrapper calls, [bsec_get_version]: it fills
    the record behind its pointer argument.  The wrapper does not look at
    the status the call returns. *)
Class BsecVersion (E : Type) : Type := {
  bsec_get_version : E -> bsec_version_t * E
}.

(** The four [int] cells behind the out-pointers of [py_bsec_get_version]. *)
Record version_cells : Type := mk_version_cells {
  major : Z;
  minor : Z;
  major_bugfix : Z;
  minor_bugfix : Z
}.

Section VersionWrapper.

Context {E : Type} `{Ver : BsecVersion E}.

(** *** [py_bsec_get_version] (lines 118-126); the function prints nothing. *)
Definition py_bsec_get_version : M E version_cells :=
  version ← library_call bsec_get_version;
  mret (mk_version_cells (ver_major version) (ver_minor version)
          (ver_major_bugfix version) (ver_minor_bugfix version)).

End VersionWrapper.

(** A version query over the scripted engine: it reports 1.4.8.0 and leaves
    the engine alone. *)
Definition scripted_version : BsecVersion scripted :=
  {| bsec_get_version := fun e => (mk_version 1 4 8 0, e) |}.

(** The identifiers the [switch] of [py_bsec_do_steps] has a label for. *)
Definition recognised (out : bsec_output_t) : bool :=
  match out_sensor_id out with
  | BSEC_OUTPUT_IAQ | BSEC_OUTPUT_CO2_EQUIVALENT
  | BSEC_OUTPUT_BREATH_VOC_EQUIVALENT => true
  | _ => false
  end.

(** The calls into the library among the events, without the printed lines. *)
Definition is_library_call (ev : event) : bool :=
  match ev with
  | Printf _ => false
  | _ => true
  end.

Definition library_calls (evs : list event) : list event :=
  List.filter is_library_call evs.

Definition is_subscription_event (ev : event) : bool :=
  match ev with
  | Call_bsec_update_subscription _ _ _ _ _ => true
  | _ => false
  end.

(** Sign bit of a binary32 value that has one, and the NaN test. *)
Definition f32_sign (x : float32) : option bool :=
  match x with
  | S754_zero s | S754_infinity s | S754_finite s _ _ => Some s
  | S754_nan => None
  end.

Definition f32_is_nan (x : float32) : bool :=
  match x with
  | S754_nan => true
  | _ => false
  end.

(** * Running the wrapper *)

Section WrapperFacts.

Context {E : Type} `{Lib : BsecLibrary E}.

Lemma bind_run {A B} (m : M E A) (k : A -> M E B) (s : state E) :
  (m ≫= k) s =
  match m s return option B * state E with
  | (Some a, s') => k a s'
  | (None, s') => (None, s')
  end.
Proof. reflexivity. Qed.

Lemma bind_Some {A B} (m : M E A) (k : A -> M E B) (s s' : state E) (a : A) :
  m s = (Some a, s') -> (m ≫= k) s = k a s'.
Proof. intros H; rewrite bind_run, H; reflexivity. Qed.

Lemma call_bsec_init_Some (s : state E) st e' :
  bsec_init (engine s) = (st, e') ->
  call_bsec_init s =
  (Some st, mk_state e' (requested_virtual_sensors s)
              (n_requested_virtual_sensors s) (trace s ++ [Call_bsec_init st])).
Proof.
  intros H. unfold call_bsec_init, library_call, emit.
  rewrite bind_run, H. reflexivity.
Qed.

Lemma call_bsec_set_configuration_Some (s : state E) blob n work nw st e' :
  bsec_set_configuration blob n work nw (engine s) = (st, e') ->
  call_bsec_set_configuration blob n work nw s =
  (Some st, mk_state e' (requested_virtual_sensors s)
              (n_requested_virtual_sensors s)
              (trace s ++ [Call_bsec_set_configuration blob n work nw st])).
Proof.
  intros H. unfold call_bsec_set_configuration, library_call, emit.
  rewrite bind_run, H. reflexivity.
Qed.

Lemma call_bsec_update_subscription_Some (s : state E) cap st rs n' e' :
  bsec_update_subscription (requested_virtual_sensors s)
    (n_requested_virtual_sensors s) cap (engine s) = (st, rs, n', e') ->
  call_bsec_update_subscription cap s =
  (Some (st, n'),
   mk_state e' (requested_virtual_sensors s) (n_requested_virtual_sensors s)
     (trace s ++ [Call_bsec_update_subscription (requested_virtual_sensors s)
                    (n_requested_virtual_sensors s) cap st n'])).
Proof.
  intros H. unfold call_bsec_update_subscription, load_requested,
    load_n_requested, library_call, emit.
  rewrite !bind_run.
  cbn [engine requested_virtual_sensors n_requested_virtual_sensors trace].
  rewrite H. reflexivity.
Qed.

Lemma call_bsec_do_steps_Some (s : state E) inputs n_in n_out st outs n' e' :
  bsec_do_steps inputs n_in n_out (engine s) = (st, outs, n', e') ->
  call_bsec_do_steps inputs n_in n_out s =
  (Some (st, take 8 outs, n'),
   mk_state e' (requested_virtual_sensors s) (n_requested_virtual_sensors s)
     (trace s ++ [Call_bsec_do_steps inputs n_in n_out st (take 8 outs) n'])).
Proof.
  intros H. unfold call_bsec_do_steps, library_call, emit.
  rewrite bind_run, H. reflexivity.
Qed.

Lemma printf_Some l (s : state E) :
  printf l s =
  (Some tt, mk_state (engine s) (requested_virtual_sensors s)
              (n_requested_virtual_sensors s) (trace s ++ [Printf l])).
Proof. reflexivity. Qed.

(** The eight stores of one fallback block. *)
Lemma store_sample_rates_run {A} (r : float32) (k : M E A) e arr n tr :
  length arr = 8%nat ->
  (store_sample_rate 0 r;; store_sample_rate 1 r;; store_sample_rate 2 r;;
   store_sample_rate 3 r;; store_sample_rate 4 r;; store_sample_rate 5 r;;
   store_sample_rate 6 r;; store_sample_rate 7 r;; k) (mk_state e arr n tr)
  = k (mk_state e (map (set_sample_rate r) arr) n tr).
Proof.
  intros Hlen.
  do 9 (destruct arr as [|? arr]; try discriminate Hlen).
  reflexivity.
Qed.

(** The seventeen stores of lines 30-54. *)
Lemma store_bundle_run {A} (k : M E A) e arr n tr :
  length arr = 8%nat ->
  (store_sensor_id 0 BSEC_OUTPUT_IAQ;;
   store_sample_rate 0 BSEC_SAMPLE_RATE_LP;;
   store_sensor_id 1 BSEC_OUTPUT_STATIC_IAQ;;
   store_sample_rate 1 BSEC_SAMPLE_RATE_LP;;
   store_sensor_id 2 BSEC_OUTPUT_CO2_EQUIVALENT;;
   store_sample_rate 2 BSEC_SAMPLE_RATE_LP;;
   store_sensor_id 3 BSEC_OUTPUT_BREATH_VOC_EQUIVALENT;;
   store_sample_rate 3 BSEC_SAMPLE_RATE_LP;;
   store_sensor_id 4 BSEC_OUTPUT_COMPENSATED_GAS;;
   store_sample_rate 4 BSEC_SAMPLE_RATE_LP;;
   store_sensor_id 5 BSEC_OUTPUT_GAS_PERCENTAGE;;
   store_sample_rate 5 BSEC_SAMPLE_RATE_LP;;
   store_sensor_id 6 BSEC_OUTPUT_STABILIZATION_STATUS;;
   store_sample_rate 6 BSEC_SAMPLE_RATE_LP;;
   store_sensor_id 7 BSEC_OUTPUT_RUN_IN_STATUS;;
   store_sample_rate 7 BSEC_SAMPLE_RATE_LP;;
   store_n_requested 8;; k) (mk_state e arr n tr)
  = k (mk_state e (bundle BSEC_SAMPLE_RATE_LP) 8 tr).
Proof.
  intros Hlen.
  do 9 (destruct arr as [|? arr]; try discriminate Hlen).
  reflexivity.
Qed.

Lemma set_sample_rate_bundle r r' :
  map (set_sample_rate r) (bundle r') = bundle r.
Proof. reflexivity. Qed.

End WrapperFacts.

(** Symbolic execution of the wrapper, one statement at a time. *)
Ltac fields :=
  cbn [engine requested_virtual_sensors n_requested_virtual_sensors trace].

Ltac run_printf := rewrite bind_run, printf_Some; fields.

Ltac run_call lem :=
  erewrite bind_Some by (eapply lem; fields; eassumption); fields.

Section FlatEquations.

Context {E : Type} `{Lib : BsecLibrary E}.

Lemma py_bsec_init_flat_eq (s : state E) :
  length (requested_virtual_sensors s) = 8%nat ->
  py_bsec_init s =
  let '(r, e', arr', n', evs) := py_bsec_init_flat s in
  (Some r, mk_state e' arr' n' (trace s ++ evs)).
Proof.
  destruct s as [e arr n tr]; fields; intros Hlen.
  unfold py_bsec_init, py_bsec_init_flat; fields.
  destruct (bsec_init e) as [st0 e0] eqn:H0.
  run_call call_bsec_init_Some.
  destruct (negb (st0 =? BSEC_OK)); [reflexivity|].
  run_printf.
  destruct (bsec_set_configuration _ _ _ _ e0) as [c e1] eqn:H1.
  run_call call_bsec_set_configuration_Some.
  rewrite bind_run.
  replace (if negb (c =? BSEC_OK) then printf (Msg_config_failed c)
           else printf Msg_config_loaded)
    with (printf (E:=E) (config_line c))
    by (unfold config_line; destruct (negb (c =? BSEC_OK)); reflexivity).
  rewrite printf_Some; fields.
  rewrite store_bundle_run by exact Hlen.
  cbv zeta.
  destruct (bsec_update_subscription _ _ _ e1) as [[[st1 rs1] n1] e2] eqn:H2.
  run_call call_bsec_update_subscription_Some.
  run_printf.
  destruct (st1 =? BSEC_OK).
  { run_printf. cbn [mret M_ret]. rewrite <- !app_assoc. reflexivity. }
  run_printf.
  rewrite store_sample_rates_run by reflexivity.
  rewrite set_sample_rate_bundle.
  destruct (bsec_update_subscription _ _ _ e2) as [[[st2 rs2] n2] e3] eqn:H3.
  run_call call_bsec_update_subscription_Some.
  run_printf.
  destruct (st2 =? BSEC_OK).
  { run_printf. cbn [mret M_ret]. rewrite <- !app_assoc. reflexivity. }
  run_printf.
  rewrite store_sample_rates_run by reflexivity.
  rewrite set_sample_rate_bundle.
  destruct (bsec_update_subscription _ _ _ e3) as [[[st3 rs3] n3] e4] eqn:H4.
  run_call call_bsec_update_subscription_Some.
  cbn [mret M_ret]. rewrite <- !app_assoc. reflexivity.
Qed.

Lemma py_bsec_do_steps_flat_eq t h p g ts o (s : state E) :
  py_bsec_do_steps t h p g ts o s =
  let '(r, e', evs) := py_bsec_do_steps_flat t h p g ts o s in
  (r, mk_state e' (requested_virtual_sensors s)
        (n_requested_virtual_sensors s) (trace s ++ evs)).
Proof.
  destruct s as [e arr n tr].
  unfold py_bsec_do_steps, py_bsec_do_steps_flat, marshalled_inputs, defaults; fields.
  cbv zeta.
  destruct (bsec_do_steps _ _ _ e) as [[[st outs] n'] e'] eqn:H.
  run_call call_bsec_do_steps_Some.
  run_printf.
  destruct (negb (st =? BSEC_OK)).
  { cbn [mret M_ret]. rewrite <- !app_assoc. reflexivity. }
  destruct (for_outputs _ _ _ _) as [o'|].
  - run_printf. cbn [mret M_ret]. rewrite <- !app_assoc. reflexivity.
  - unfold undefined. rewrite <- !app_assoc. reflexivity.
Qed.

End FlatEquations.

(** Case analysis on what the library answers during a run. *)
Ltac engine_case :=
  match goal with
  | |- context [bsec_init ?e] =>
      let st := fresh "st_init" in
      destruct (bsec_init e) as [st ?] eqn:?
  | |- context [bsec_set_configuration ?a ?b ?c ?d ?e] =>
      let st := fresh "st_cfg" in
      destruct (bsec_set_configuration a b c d e) as [st ?] eqn:?
  | |- context [bsec_update_subscription ?a ?b ?c ?e] =>
      let st := fresh "st_sub" in
      destruct (bsec_update_subscription a b c e) as [[[st ?] ?] ?] eqn:?
  | |- context [?st =? BSEC_OK] =>
      destruct (Z.eqb_spec st BSEC_OK); cbn [negb]
  end.

Ltac init_cases s Hlen :=
  unfold result_of, state_after, events_of;
  rewrite (py_bsec_init_flat_eq s Hlen);
  unfold py_bsec_init_flat;
  repeat engine_case;
  cbn [fst snd trace engine requested_virtual_sensors n_requested_virtual_sensors];
  rewrite ?drop_app_length;
  cbn [subscription_calls flat_map app].

Ltac index_cases k H :=
  repeat (destruct k as [|k]; cbn [lookup list_lookup] in H;
          [injection H as <- | ]);
  try discriminate H.

Ltac step_cases t h p g ts o s :=
  unfold result_of, state_after, events_of;
  rewrite (py_bsec_do_steps_flat_eq t h p g ts o s);
  unfold py_bsec_do_steps_flat;
  destruct (bsec_do_steps _ _ _ (engine s)) as [[[st outs] n'] e'];
  destruct (Z.eqb_spec st BSEC_OK); cbn [negb];
  try destruct (for_outputs _ _ _ _) eqn:?;
  cbn [fst snd trace]; rewrite ?drop_app_length;
  cbn [step_calls flat_map app].

(** * [py_bsec_init] *)

Section InitFacts.

Context {E : Type} `{Lib : BsecLibrary E}.

(** C9: when [bsec_init] reports a status other than [BSEC_OK],
    [py_bsec_init] returns that status at once: the only event of the run
    is the [bsec_init] call (no configuration load, no subscription
    update), and both statics are left as they were. *)
Theorem basic_init_failure_returns_immediately (s : state E) st e' :
  bsec_init (engine s) = (st, e') ->
  st <> BSEC_OK ->
  py_bsec_init s =
  (Some st, mk_state e' (requested_virtual_sensors s)
              (n_requested_virtual_sensors s) (trace s ++ [Call_bsec_init st])).
Proof.
  intros H Hst. unfold py_bsec_init.
  erewrite bind_Some by (apply call_bsec_init_Some; exact H).
  destruct (Z.eqb_spec st BSEC_OK) as [->|_]; [contradiction|].
  reflexivity.
Qed.

(** C1: the negotiation short-circuits.  The subscription updates of a
    run are an initial segment of the three tiers in the order LP, SCAN,
    ULP (none skipped), beginning with LP whenever [bsec_init] succeeded;
    an update that reports [BSEC_OK] is the last one and makes
    [py_bsec_init] return 0, and a rejected LP or SCAN update is followed
    by the update of the next tier. *)
Theorem negotiation_short_circuits (s : state E) :
  length (requested_virtual_sensors s) = 8%nat ->
  let subs := subscription_calls (events_of py_bsec_init s) in
  is_Some (result_of py_bsec_init s)
  /\ map sub_requested subs `prefix_of` map bundle tiers
  /\ (fst (bsec_init (engine s)) = BSEC_OK -> subs <> [])
  /\ forall k c, subs !! k = Some c ->
       (sub_status c = BSEC_OK ->
        length subs = S k /\ result_of py_bsec_init s = Some 0)
       /\ (sub_status c <> BSEC_OK -> (k < 2)%nat -> is_Some (subs !! S k)).
Proof.
  intros Hlen subs; subst subs.
  init_cases s Hlen.
  all: split; [eauto|].
  all: split; [unfold tiers; cbn [map sub_requested];
               first [ by apply prefix_nil | by eexists; cbn [app]; reflexivity ]|].
  all: split; [cbn [fst]; try congruence|].
  all: intros k c Hk; index_cases k Hk; cbn [sub_status length lookup list_lookup].
  all: split; [intros ?|intros ? ?]; try congruence; try lia; eauto.
  subst; split; reflexivity.
Qed.

(** C2: when the LP, SCAN and ULP updates are all rejected,
    [py_bsec_init] returns the status of the third update, the one made
    with the ULP bundle; that is not a success value, and neither success
    line is printed. *)
Theorem all_tiers_rejected (s : state E) (c1 c2 c3 : subscription_call) :
  length (requested_virtual_sensors s) = 8%nat ->
  subscription_calls (events_of py_bsec_init s) = [c1; c2; c3] ->
  sub_status c1 <> BSEC_OK ->
  sub_status c2 <> BSEC_OK ->
  sub_status c3 <> BSEC_OK ->
  sub_requested c3 = bundle BSEC_SAMPLE_RATE_ULP
  /\ result_of py_bsec_init s = Some (sub_status c3)
  /\ result_of py_bsec_init s <> Some BSEC_OK
  /\ forallb (fun ev => negb (is_success_line ev)) (events_of py_bsec_init s) = true.
Proof.
  intros Hlen. init_cases s Hlen.
  all: intros Hsubs H1 H2 H3; try discriminate Hsubs.
  injection Hsubs as <- <- <-. cbn [sub_status sub_requested] in *.
  split; [reflexivity|]. split; [reflexivity|]. split; [congruence|].
  unfold config_line; destruct (negb (st_cfg =? BSEC_OK)); reflexivity.
Qed.

(** C7: the [k]-th subscription update of a run is handed the count 8
    and a bundle of exactly 8 requests whose identifiers are the fixed
    eight, all at the rate of the [k]-th tier (LP, then SCAN, then ULP). *)
Theorem bundle_at_every_subscription (s : state E) (k : nat) (c : subscription_call) :
  length (requested_virtual_sensors s) = 8%nat ->
  subscription_calls (events_of py_bsec_init s) !! k = Some c ->
  exists rate,
    tiers !! k = Some rate
    /\ sub_n_requested c = 8
    /\ length (sub_requested c) = 8%nat
    /\ map cfg_sensor_id (sub_requested c) =
       [ BSEC_OUTPUT_IAQ; BSEC_OUTPUT_STATIC_IAQ; BSEC_OUTPUT_CO2_EQUIVALENT;
         BSEC_OUTPUT_BREATH_VOC_EQUIVALENT; BSEC_OUTPUT_COMPENSATED_GAS;
         BSEC_OUTPUT_GAS_PERCENTAGE; BSEC_OUTPUT_STABILIZATION_STATUS;
         BSEC_OUTPUT_RUN_IN_STATUS ]
    /\ Forall (fun r => cfg_sample_rate r = rate) (sub_requested c).
Proof.
  intros Hlen. init_cases s Hlen.
  all: intros Hk; index_cases k Hk.
  all: eexists; split; [reflexivity|]; cbn [sub_n_requested sub_requested].
  all: repeat split; repeat constructor.
Qed.

(** The count behind [&n_required_sensor_settings]: the LP update is
    handed [BSEC_MAX_PHYSICAL_SENSOR]; every later update is handed what
    the library stored there during the update before it (the local is
    initialised once, on line 58, and never reset). *)
Lemma subscription_capacity_chain (s : state E) :
  length (requested_virtual_sensors s) = 8%nat ->
  let subs := subscription_calls (events_of py_bsec_init s) in
  (forall c, subs !! 0%nat = Some c -> sub_n_required_in c = BSEC_MAX_PHYSICAL_SENSOR)
  /\ (forall k c c', subs !! k = Some c -> subs !! S k = Some c' ->
        sub_n_required_in c' = sub_n_required_out c).
Proof.
  intros Hlen subs; subst subs. init_cases s Hlen.
  all: split; [intros c Hc; injection Hc as <- || discriminate Hc; reflexivity|].
  all: intros k c c' Hk Hk'; index_cases k Hk; cbn [lookup list_lookup] in Hk';
    try discriminate Hk'; injection Hk' as <-; reflexivity.
Qed.

End InitFacts.

Section ConfigurationLoad.

Context {E : Type} `{Lib : BsecLibrary E}.

(** C8: whatever status [c] the configuration load reports, the run is
    the run of a successful load: same returned value (so [c] is not what
    is returned), same engine and statics afterwards, same subscription
    updates, and the same events apart from those of the load itself.  A
    failed load after a successful [bsec_init] is logged and the
    negotiation is entered. *)
Theorem configuration_failure_is_recovered (c : bsec_library_return_t) (s : state E) :
  length (requested_virtual_sensors s) = 8%nat ->
  let failed := py_bsec_init (Lib := with_config_status c Lib) in
  let loaded := py_bsec_init (Lib := with_config_status BSEC_OK Lib) in
  result_of failed s = result_of loaded s
  /\ engine (state_after failed s) = engine (state_after loaded s)
  /\ requested_virtual_sensors (state_after failed s)
     = requested_virtual_sensors (state_after loaded s)
  /\ subscription_calls (events_of failed s) = subscription_calls (events_of loaded s)
  /\ List.filter (fun ev => negb (is_config_event ev)) (events_of failed s)
     = List.filter (fun ev => negb (is_config_event ev)) (events_of loaded s)
  /\ (fst (bsec_init (engine s)) = BSEC_OK -> c <> BSEC_OK ->
      In (Printf (Msg_config_failed c)) (events_of failed s)
      /\ subscription_calls (events_of failed s) <> []).
Proof.
  intros Hlen failed loaded; subst failed loaded.
  unfold result_of, state_after, events_of.
  rewrite (py_bsec_init_flat_eq (Lib := with_config_status c Lib) s Hlen).
  rewrite (py_bsec_init_flat_eq (Lib := with_config_status BSEC_OK Lib) s Hlen).
  unfold py_bsec_init_flat.
  cbn [with_config_status bsec_init bsec_set_configuration bsec_update_subscription
       BSEC_MAX_PHYSICAL_SENSOR BSEC_SAMPLE_RATE_LP BSEC_SAMPLE_RATE_SCAN
       BSEC_SAMPLE_RATE_ULP bsec_config_iaq].
  repeat engine_case.
  all: cbn [fst snd trace engine requested_virtual_sensors];
    rewrite ?drop_app_length; unfold config_line;
    destruct (Z.eqb_spec c BSEC_OK); cbn.
  all: repeat split; try reflexivity; try congruence; intros; try congruence.
  all: try discriminate; auto 10.
Qed.

End ConfigurationLoad.

(** * [py_bsec_do_steps] *)

Section StepFacts.

Context {E : Type} `{Lib : BsecLibrary E}.

Lemma for_outputs_copy count : forall i outputs o,
  (i + count <= length outputs)%nat ->
  for_outputs count i outputs o =
  Some (copy_outputs (take count (drop i outputs)) o).
Proof.
  induction count as [|count IH]; intros i outputs o Hlen.
  - reflexivity.
  - cbn [for_outputs].
    destruct (lookup_lt_is_Some_2 outputs i ltac:(lia)) as [out Hout].
    rewrite Hout, (drop_S _ _ _ Hout).
    rewrite IH by lia. reflexivity.
Qed.

Lemma returned_for_snoc id returned out :
  returned_for id (returned ++ [out]) =
  if sensor_id_eqb (out_sensor_id out) id then Some out
  else returned_for id returned.
Proof.
  unfold returned_for. rewrite rev_app_distr. reflexivity.
Qed.

Lemma copy_outputs_spec returned o :
  copy_outputs returned o =
  mk_out_params
    (from_option out_signal (iaq o) (returned_for BSEC_OUTPUT_IAQ returned))
    (from_option out_accuracy (iaq_accuracy o)
       (returned_for BSEC_OUTPUT_IAQ returned))
    (from_option out_signal (co2_equivalent o)
       (returned_for BSEC_OUTPUT_CO2_EQUIVALENT returned))
    (from_option out_signal (breath_voc_equivalent o)
       (returned_for BSEC_OUTPUT_BREATH_VOC_EQUIVALENT returned)).
Proof.
  induction returned as [|out returned IH] using rev_ind.
  - destruct o; reflexivity.
  - unfold copy_outputs in *. rewrite fold_left_app. cbn [fold_left].
    rewrite IH, !returned_for_snoc. unfold switch_sensor_id.
    destruct (out_sensor_id out); reflexivity.
Qed.

Lemma returned_for_absent id returned :
  Forall (fun out => out_sensor_id out <> id) returned ->
  returned_for id returned = None.
Proof.
  induction returned as [|out returned IH] using rev_ind; intros H.
  - reflexivity.
  - apply Forall_app in H as [H1 H2]. rewrite returned_for_snoc, IH by exact H1.
    apply Forall_inv in H2.
    destruct (out_sensor_id out), id; try reflexivity; try congruence.
    cbn. destruct (Z.eqb_spec raw raw0); congruence.
Qed.

(** C3: when the [bsec_do_steps] call reports a status other than
    [BSEC_OK], [py_bsec_do_steps] returns that status and the four
    out-cells hold what the caller supplied. *)
Theorem step_failure_leaves_outputs t h p g ts o (s : state E) (c : step_call) :
  step_calls (events_of (py_bsec_do_steps t h p g ts o) s) = [c] ->
  step_status c <> BSEC_OK ->
  result_of (py_bsec_do_steps t h p g ts o) s = Some (step_status c, o).
Proof.
  step_cases t h p g ts o s.
  all: intros Hc Hst; injection Hc as <-; cbn [step_status] in *.
  all: congruence.
Qed.

(** C4: after a successful [bsec_do_steps] that reports [n] outputs
    within the array, [py_bsec_do_steps] returns 0 with the out-cells at
    the defaults (25.0, 0, 400.0, 0.5) overwritten by the returned outputs
    that match by sensor identifier.  With no CO2-equivalent among the
    returned outputs [co2_equivalent] is 400.0, and the single output
    IAQ (42.0, accuracy 3) gives (42.0, 3, 400.0, 0.5). *)
Theorem step_success_overwrites_defaults t h p g ts o (s : state E) (c : step_call) :
  step_calls (events_of (py_bsec_do_steps t h p g ts o) s) = [c] ->
  step_status c = BSEC_OK ->
  (Z.to_nat (step_n_outputs_out c) <= length (step_outputs c))%nat ->
  let returned := take (Z.to_nat (step_n_outputs_out c)) (step_outputs c) in
  result_of (py_bsec_do_steps t h p g ts o) s = Some (0, overwrite_defaults returned)
  /\ overwrite_defaults [] = mk_out_params f32_25_0 0 f32_400_0 f32_0_5
  /\ (Forall (fun out => out_sensor_id out <> BSEC_OUTPUT_CO2_EQUIVALENT) returned ->
      co2_equivalent (overwrite_defaults returned) = f32_400_0)
  /\ (returned = [mk_output BSEC_OUTPUT_IAQ f32_42_0 3] ->
      overwrite_defaults returned = mk_out_params f32_42_0 3 f32_400_0 f32_0_5).
Proof.
  intros Hc Hst Hn returned.
  assert (Hrun : result_of (py_bsec_do_steps t h p g ts o) s
                 = Some (0, overwrite_defaults returned)).
  { subst returned. revert Hc Hst Hn. step_cases t h p g ts o s.
    all: intros Hc Hst Hn; injection Hc as <-; cbn [step_status step_outputs step_n_outputs_out] in *.
    all: try congruence.
    all: rewrite for_outputs_copy in * by (cbn [Nat.add]; exact Hn).
    all: try discriminate.
    match goal with H : Some _ = Some _ |- _ => injection H as <- end.
    rewrite drop_0, copy_outputs_spec. reflexivity. }
  split; [exact Hrun|]. split; [reflexivity|]. split.
  - intros Habsent. unfold overwrite_defaults. cbn [co2_equivalent].
    rewrite returned_for_absent by exact Habsent. reflexivity.
  - intros ->. reflexivity.
Qed.

(** C5, as amended: every run of [py_bsec_do_steps] makes one
    [bsec_do_steps] call with 4 inputs, in the order temperature, humidity,
    pressure, gas resistance; the pressure signal is the binary32 product
    (round to nearest even) of the argument and 100.0f, and the three
    other signals are the arguments themselves. *)
Theorem step_inputs_marshalled t h p g ts o (s : state E) :
  exists c,
    step_calls (events_of (py_bsec_do_steps t h p g ts o) s) = [c]
    /\ step_n_inputs c = 4
    /\ map in_sensor_id (step_inputs c) =
       [BSEC_INPUT_TEMPERATURE; BSEC_INPUT_HUMIDITY; BSEC_INPUT_PRESSURE;
        BSEC_INPUT_GASRESISTOR]
    /\ map in_signal (step_inputs c) = [t; h; f32_mul p f32_100_0; g].
Proof.
  step_cases t h p g ts o s.
  all: eexists; split; [reflexivity|]; repeat split.
Qed.

(** C10: the four inputs handed to [bsec_do_steps] all carry the
    caller's [timestamp_ns]. *)
Theorem step_inputs_share_timestamp t h p g ts o (s : state E) :
  exists c,
    step_calls (events_of (py_bsec_do_steps t h p g ts o) s) = [c]
    /\ length (step_inputs c) = 4%nat
    /\ Forall (fun i => in_time_stamp i = ts) (step_inputs c).
Proof.
  step_cases t h p g ts o s.
  all: eexists; split; [reflexivity|]; split; [reflexivity|]; repeat constructor.
Qed.

End StepFacts.

(** * The wrapper on the scripted engine *)

Lemma negotiation_short_circuits_witness :
  let s0 := scripted_state [0; 0; -1; 0] [] 0 in
  length (subscription_calls
            (events_of (py_bsec_init (Lib := scripted_library)) s0)) = 2%nat
  /\ result_of (py_bsec_init (Lib := scripted_library)) s0 = Some 0.
Proof.
  intros s0.
  destruct (negotiation_short_circuits (Lib := scripted_library) s0 eq_refl)
    as (_ & _ & _ & H).
  destruct (H 1%nat
              (mk_subscription_call
                 (bundle (BSEC_SAMPLE_RATE_SCAN (BsecLibrary := scripted_library)))
                 8 0 0 0)
              ltac:(vm_compute; reflexivity)) as [Hok _].
  exact (Hok eq_refl).
Defined.

Lemma all_tiers_rejected_witness :
  let s0 := scripted_state [0; 0; -1; -2; -3] [] 0 in
  result_of (py_bsec_init (Lib := scripted_library)) s0 = Some (-3)
  /\ forallb (fun ev => negb (is_success_line ev))
       (events_of (py_bsec_init (Lib := scripted_library)) s0) = true.
Proof.
  intros s0.
  destruct (all_tiers_rejected (Lib := scripted_library) s0
              (mk_subscription_call
                 (bundle (BSEC_SAMPLE_RATE_LP (BsecLibrary := scripted_library)))
                 8 8 (-1) 0)
              (mk_subscription_call
                 (bundle (BSEC_SAMPLE_RATE_SCAN (BsecLibrary := scripted_library)))
                 8 0 (-2) 0)
              (mk_subscription_call
                 (bundle (BSEC_SAMPLE_RATE_ULP (BsecLibrary := scripted_library)))
                 8 0 (-3) 0)
              eq_refl ltac:(vm_compute; reflexivity)
              ltac:(discriminate) ltac:(discriminate) ltac:(discriminate))
    as (_ & Hret & _ & Hlog).
  split; [exact Hret | exact Hlog].
Defined.

Lemma bundle_at_every_subscription_witness :
  let s0 := scripted_state [0; 0; -1; -2; -3] [] 0 in
  exists c rate,
    subscription_calls (events_of (py_bsec_init (Lib := scripted_library)) s0)
      !! 2%nat = Some c
    /\ tiers (Lib := scripted_library) !! 2%nat = Some rate
    /\ length (sub_requested c) = 8%nat
    /\ Forall (fun r => cfg_sample_rate r = rate) (sub_requested c).
Proof.
  intros s0.
  pose (c := mk_subscription_call
               (bundle (BSEC_SAMPLE_RATE_ULP (BsecLibrary := scripted_library)))
               8 0 (-3) 0).
  assert (Hk : subscription_calls
                 (events_of (py_bsec_init (Lib := scripted_library)) s0)
                 !! 2%nat = Some c) by (vm_compute; reflexivity).
  destruct (bundle_at_every_subscription (Lib := scripted_library) s0 2 c
              eq_refl Hk) as (rate & Hrate & _ & Hlen & _ & Hall).
  exists c, rate. repeat split; assumption.
Defined.

Lemma configuration_failure_is_recovered_witness :
  let s0 := scripted_state [0; 0; 0] [] 0 in
  result_of (py_bsec_init (Lib := with_config_status (-9) scripted_library)) s0
  = result_of (py_bsec_init (Lib := with_config_status BSEC_OK scripted_library)) s0.
Proof.
  intros s0.
  exact (proj1 (configuration_failure_is_recovered
                  (Lib := scripted_library) (-9) s0 eq_refl)).
Defined.

Lemma basic_init_failure_returns_immediately_witness :
  let s0 := scripted_state [-5; 0; 0] [] 0 in
  py_bsec_init (Lib := scripted_library) s0
  = (Some (-5),
     mk_state (mk_scripted [0; 0] [] 0) (requested_virtual_sensors s0) 1
       [Call_bsec_init (-5)]).
Proof.
  intros s0.
  apply (basic_init_failure_returns_immediately (Lib := scripted_library) s0
           (-5) (mk_scripted [0; 0] [] 0)).
  - reflexivity.
  - discriminate.
Defined.

Lemma step_failure_leaves_outputs_witness :
  let s0 := scripted_state [-7] [] 0 in
  result_of (py_bsec_do_steps (Lib := scripted_library)
               f32_22_5 f32_45_0 f32_1013_25 f32_50000_0 1000 sentinels) s0
  = Some (-7, sentinels).
Proof.
  intros s0.
  exact (step_failure_leaves_outputs (Lib := scripted_library)
           f32_22_5 f32_45_0 f32_1013_25 f32_50000_0 1000 sentinels s0
           (mk_step_call
              (marshalled_inputs f32_22_5 f32_45_0 f32_1013_25 f32_50000_0 1000)
              4 8 (-7) [] 0)
           ltac:(vm_compute; reflexivity) ltac:(discriminate)).
Defined.

Lemma step_success_overwrites_defaults_witness :
  let s0 := scripted_state [0] [mk_output BSEC_OUTPUT_IAQ f32_42_0 3] 1 in
  result_of (py_bsec_do_steps (Lib := scripted_library)
               f32_22_5 f32_45_0 f32_1013_25 f32_50000_0 1000 sentinels) s0
  = Some (0, mk_out_params f32_42_0 3 f32_400_0 f32_0_5).
Proof.
  intros s0.
  destruct (step_success_overwrites_defaults (Lib := scripted_library)
              f32_22_5 f32_45_0 f32_1013_25 f32_50000_0 1000 sentinels s0
              (mk_step_call
                 (marshalled_inputs f32_22_5 f32_45_0 f32_1013_25 f32_50000_0 1000)
                 4 8 0 [mk_output BSEC_OUTPUT_IAQ f32_42_0 3] 1)
              ltac:(vm_compute; reflexivity) eq_refl ltac:(vm_compute; lia))
    as (Hrun & _ & _ & Hone).
  rewrite Hrun, (Hone eq_refl). reflexivity.
Defined.

(** C5 as stated fails: 1013.2f is finite, and the pressure signal handed
    to the library for it is 101320.0, which is not 100 times the argument
    (101320.001220703125). *)
Lemma pressure_conversion_not_exact :
  let s0 := scripted_state [0] [] 0 in
  f32_is_finite f32_1013_2 = true
  /\ f32_valid f32_1013_2 = true
  /\ exists c x,
       step_calls
         (events_of (py_bsec_do_steps (Lib := scripted_library)
                       f32_22_5 f32_45_0 f32_1013_2 f32_50000_0 1000 sentinels) s0)
       = [c]
       /\ step_inputs c !! 2%nat = Some x
       /\ in_sensor_id x = BSEC_INPUT_PRESSURE
       /\ in_signal x = f32_lit 101320 0
       /\ exactly_100_times f32_1013_2 (in_signal x) = false.
Proof.
  intros s0. split; [reflexivity|]. split; [reflexivity|].
  eexists _, _. split; [vm_compute; reflexivity|].
  split; [reflexivity|]. split; [reflexivity|].
  split; vm_compute; reflexivity.
Qed.

(** A large finite argument overflows: 2^127 times 100.0f is infinity. *)
Lemma pressure_conversion_overflows :
  f32_is_finite (f32_lit 1 127) = true
  /\ f32_mul (f32_lit 1 127) f32_100_0 = S754_infinity false.
Proof. split; vm_compute; reflexivity. Qed.

(** Where the product is representable nothing is lost: 1013.25 hPa is
    handed over as 101325 Pa. *)
Lemma pressure_conversion_1013_25 :
  f32_mul f32_1013_25 f32_100_0 = f32_lit 101325 0
  /\ exactly_100_times f32_1013_25 (f32_mul f32_1013_25 f32_100_0) = true.
Proof. split; vm_compute; reflexivity. Qed.

(** C6 on an engine that rejects LP and SCAN and, as the interface lets it,
    stores 0 in [*n_required_sensor_settings]: the bundle count is 8 at
    every update, but only the LP update is handed the capacity
    [BSEC_MAX_PHYSICAL_SENSOR]; the SCAN and ULP updates are handed 0. *)
Lemma later_tiers_reuse_the_stored_count :
  let s0 := scripted_state [0; 0; -1; -2; -3] [] 0 in
  let subs :=
    subscription_calls (events_of (py_bsec_init (Lib := scripted_library)) s0) in
  BSEC_MAX_PHYSICAL_SENSOR (BsecLibrary := scripted_library) = 8
  /\ map sub_n_requested subs = [8; 8; 8]
  /\ map sub_n_required_in subs = [8; 0; 0]
  /\ map sub_status subs = [-1; -2; -3].
Proof. repeat split; vm_compute; reflexivity. Qed.

(** The scenarios of the specification, on the scripted engine. *)

Example init_accepts_LP :
  let s0 := scripted_state [0; 0; 0] [] 0 in
  result_of (py_bsec_init (Lib := scripted_library)) s0 = Some 0
  /\ length (subscription_calls
               (events_of (py_bsec_init (Lib := scripted_library)) s0)) = 1%nat
  /\ In (Printf Msg_LP_success)
        (events_of (py_bsec_init (Lib := scripted_library)) s0).
Proof.
  split; [vm_compute; reflexivity|]. split; [vm_compute; reflexivity|].
  vm_compute. do 6 right. left. reflexivity.
Qed.

Example init_accepts_ULP_after_three_calls :
  let s0 := scripted_state [0; 0; -1; -2; 0] [] 0 in
  result_of (py_bsec_init (Lib := scripted_library)) s0 = Some 0
  /\ length (subscription_calls
               (events_of (py_bsec_init (Lib := scripted_library)) s0)) = 3%nat.
Proof. split; vm_compute; reflexivity. Qed.

(** Reading a ninth output is outside the array: the step is undefined. *)
Example step_past_the_array_is_undefined :
  let out := mk_output BSEC_OUTPUT_IAQ f32_42_0 3 in
  let s0 := scripted_state [0] (replicate 9 out) 9 in
  result_of (py_bsec_do_steps (Lib := scripted_library)
               f32_22_5 f32_45_0 f32_1013_25 f32_50000_0 1000 sentinels) s0
  = None.
Proof. vm_compute. reflexivity. Qed.

(** * Further properties of [py_bsec_init] *)

Section InitExtras.

Context {E : Type} `{Lib : BsecLibrary E}.

(** X1: [py_bsec_init] keeps the static array at 8 entries.  A run without
    a subscription update leaves both statics alone; otherwise they end as
    what the last update was handed: the count 8 and the bundle at the rate
    of the last tier tried. *)
Theorem init_statics_follow_last_subscription (s : state E) :
  length (requested_virtual_sensors s) = 8%nat ->
  let s' := state_after py_bsec_init s in
  let subs := subscription_calls (events_of py_bsec_init s) in
  length (requested_virtual_sensors s') = 8%nat
  /\ (subs = [] ->
      requested_virtual_sensors s' = requested_virtual_sensors s
      /\ n_requested_virtual_sensors s' = n_requested_virtual_sensors s)
  /\ (forall c, last subs = Some c ->
      requested_virtual_sensors s' = sub_requested c
      /\ n_requested_virtual_sensors s' = 8
      /\ exists rate, tiers !! (length subs - 1)%nat = Some rate
                      /\ requested_virtual_sensors s' = bundle rate).
Proof.
  intros Hlen s' subs; subst s' subs.
  init_cases s Hlen.
  all: split; [first [exact Hlen | reflexivity]|].
  all: split; [intros Hnil; first [discriminate Hnil | split; reflexivity]|].
  all: intros c Hc; cbn [last] in Hc; try discriminate Hc; injection Hc as <-.
  all: cbn [sub_requested length Nat.sub lookup list_lookup tiers].
  all: repeat split; eexists; split; reflexivity.
Qed.

(** X2: what the statics hold beforehand does not matter.  From the same
    engine state, two runs return the same value, add the same events and
    leave the same engine; once a subscription update was made they leave
    the same statics as well. *)
Theorem init_ignores_previous_statics (s1 s2 : state E) :
  engine s1 = engine s2 ->
  length (requested_virtual_sensors s1) = 8%nat ->
  length (requested_virtual_sensors s2) = 8%nat ->
  result_of py_bsec_init s1 = result_of py_bsec_init s2
  /\ events_of py_bsec_init s1 = events_of py_bsec_init s2
  /\ engine (state_after py_bsec_init s1) = engine (state_after py_bsec_init s2)
  /\ (subscription_calls (events_of py_bsec_init s1) <> [] ->
      requested_virtual_sensors (state_after py_bsec_init s1)
      = requested_virtual_sensors (state_after py_bsec_init s2)
      /\ n_requested_virtual_sensors (state_after py_bsec_init s1)
         = n_requested_virtual_sensors (state_after py_bsec_init s2)).
Proof.
  intros He H1 H2.
  unfold result_of, state_after, events_of.
  rewrite (py_bsec_init_flat_eq s1 H1), (py_bsec_init_flat_eq s2 H2).
  unfold py_bsec_init_flat. rewrite He.
  repeat engine_case.
  all: cbn [fst snd trace engine requested_virtual_sensors n_requested_virtual_sensors];
    rewrite ?drop_app_length; cbn [subscription_calls flat_map app].
  all: repeat split; try reflexivity; congruence.
Qed.

(** X3: [py_bsec_init] returns 0 exactly when its last subscription
    update was accepted; in particular never when [bsec_init] failed. *)
Theorem init_returns_zero_iff_accepted (s : state E) :
  length (requested_virtual_sensors s) = 8%nat ->
  result_of py_bsec_init s = Some 0
  <-> exists c, last (subscription_calls (events_of py_bsec_init s)) = Some c
                /\ sub_status c = BSEC_OK.
Proof.
  intros Hlen. init_cases s Hlen.
  all: cbn [last]; unfold BSEC_OK in *;
    (split; [intros Hr | intros (c & Hc & Hst)]); simplify_eq/=; eauto.
Qed.

Lemma config_line_not_tier_line c :
  config_line c <> Msg_LP_success /\ config_line c <> Msg_SCAN_success
  /\ (forall st, config_line c <> Msg_LP_result st)
  /\ (forall st, config_line c <> Msg_SCAN_result st).
Proof. unfold config_line; destruct (negb (c =? BSEC_OK)); repeat split; intros; discriminate. Qed.

Ltac in_cases :=
  repeat match goal with
  | H : In _ (_ :: _) |- _ => destruct H as [H|H]
  | H : In _ [] |- _ => destruct H
  | H : Printf _ = Printf _ |- _ => injection H as H
  | H : config_line ?c = _ |- _ => exfalso; revert H; apply config_line_not_tier_line
  | H : _ = _ |- _ => discriminate H
  end.

(** X5: the LP success line is printed exactly when LP is accepted, the
    SCAN success line exactly when SCAN is accepted after LP was rejected,
    and a run that reaches ULP prints no success line, whatever ULP
    answers. *)
Theorem success_lines_announce_LP_and_SCAN_only (s : state E) :
  length (requested_virtual_sensors s) = 8%nat ->
  let evs := events_of py_bsec_init s in
  let subs := subscription_calls evs in
  (In (Printf Msg_LP_success) evs
   <-> exists c, subs = [c] /\ sub_status c = BSEC_OK)
  /\ (In (Printf Msg_SCAN_success) evs
      <-> exists c1 c2, subs = [c1; c2] /\ sub_status c2 = BSEC_OK)
  /\ (length subs = 3%nat -> forallb (fun ev => negb (is_success_line ev)) evs = true).
Proof.
  intros Hlen evs subs; subst evs subs.
  init_cases s Hlen.
  all: split; [|split].
  all: try (intros Hl; try discriminate Hl;
            unfold config_line; destruct (negb (_ =? BSEC_OK)); reflexivity).
  all: split.
  all: try (intros H; in_cases; fail).
  all: try (intros (c & Hc & Hst); try discriminate Hc; injection Hc as <-;
            cbn [sub_status] in Hst; congruence).
  all: try (intros (c1 & c2 & Hc & Hst); try discriminate Hc; injection Hc as <- <-;
            cbn [sub_status] in Hst; congruence).
  all: try (intros _; eexists; split; [reflexivity| assumption]).
  all: try (intros _; eexists _, _; split; [reflexivity| assumption]).
  all: try (intros _; cbn; tauto).
Qed.

(** X6: the library calls of a run, in order: [bsec_init] first and, when
    it fails, nothing else; otherwise one [bsec_set_configuration] with the
    blob [bsec_config_iaq], its full size and no work buffer, then between
    one and three subscription updates. *)
Theorem init_library_calls_in_order (s : state E) :
  length (requested_virtual_sensors s) = 8%nat ->
  let calls := library_calls (events_of py_bsec_init s) in
  exists st,
    fst (bsec_init (engine s)) = st
    /\ (st <> BSEC_OK -> calls = [Call_bsec_init st])
    /\ (st = BSEC_OK ->
        exists cst rest,
          calls = Call_bsec_init st
                  :: Call_bsec_set_configuration bsec_config_iaq
                       (Z.of_nat (length bsec_config_iaq)) None 0 cst
                  :: rest
          /\ forallb is_subscription_event rest = true
          /\ (1 <= length rest <= 3)%nat).
Proof.
  intros Hlen calls; subst calls.
  unfold library_calls.
  init_cases s Hlen.
  all: eexists; split; [reflexivity|].
  all: unfold config_line.
  all: match goal with
       | |- context [negb (?c =? BSEC_OK)] => destruct (negb (c =? BSEC_OK))
       | _ => idtac
       end.
  all: cbn [List.filter is_library_call app].
  all: split; [intros Hst; first [reflexivity | congruence]|].
  all: intros Hst; try congruence.
  all: eexists _, _; split; [reflexivity|]; split; [reflexivity|]; cbn [length]; lia.
Qed.

(** X7: the LP and SCAN result lines carry the status the corresponding
    subscription update returned, and appear only when that update was
    made. *)
Theorem result_lines_report_the_status (s : state E) (st : Z) :
  length (requested_virtual_sensors s) = 8%nat ->
  let evs := events_of py_bsec_init s in
  let subs := subscription_calls evs in
  (In (Printf (Msg_LP_result st)) evs
   <-> exists c, subs !! 0%nat = Some c /\ sub_status c = st)
  /\ (In (Printf (Msg_SCAN_result st)) evs
      <-> exists c, subs !! 1%nat = Some c /\ sub_status c = st).
Proof.
  intros Hlen evs subs; subst evs subs.
  init_cases s Hlen.
  all: unfold config_line;
    match goal with
    | |- context [negb (?c =? BSEC_OK)] => destruct (negb (c =? BSEC_OK))
    | _ => idtac
    end.
  all: cbn [In lookup list_lookup]; split; split.
  all: try (intros (c & Hc & Hst); try discriminate Hc; injection Hc as <-;
            cbn [sub_status] in Hst; subst; tauto).
  all: intros H; repeat (destruct H as [H|H]; try discriminate H); try contradiction.
  all: injection H as <-; eexists; split; reflexivity.
Qed.

(** X8: a second [py_bsec_init] starts afresh: its first subscription
    update is handed the LP bundle, the count 8 and the capacity
    [BSEC_MAX_PHYSICAL_SENSOR], wherever the previous run stopped. *)
Theorem reinit_starts_again_at_LP (s : state E) (c : subscription_call) :
  length (requested_virtual_sensors s) = 8%nat ->
  let s1 := state_after py_bsec_init s in
  subscription_calls (events_of py_bsec_init s1) !! 0%nat = Some c ->
  sub_requested c = bundle BSEC_SAMPLE_RATE_LP
  /\ sub_n_requested c = 8
  /\ sub_n_required_in c = BSEC_MAX_PHYSICAL_SENSOR.
Proof.
  intros Hlen s1; subst s1.
  assert (Hlen1 : length (requested_virtual_sensors (state_after py_bsec_init s)) = 8%nat).
  { init_cases s Hlen; first [exact Hlen | reflexivity]. }
  generalize dependent (state_after py_bsec_init s). intros s1 Hlen1.
  init_cases s1 Hlen1.
  all: cbn [lookup list_lookup]; intros Hc; try discriminate Hc; injection Hc as <-.
  all: repeat split.
Qed.

End InitExtras.

(** * Further properties of [py_bsec_do_steps] *)

(** Rounding a non-negative significand never yields a NaN and keeps the
    sign. *)
Lemma shr_1_nonneg mrs : 0 <= shr_m mrs -> 0 <= shr_m (shr_1 mrs).
Proof.
  destruct mrs as [m r s']; cbn [shr_m shr_1].
  destruct m as [|[q|q|]|[q|q|]]; cbn [shr_m]; lia.
Qed.

Lemma iter_pos_shr_1_nonneg n : forall mrs,
  0 <= shr_m mrs -> 0 <= shr_m (SpecFloat.iter_pos shr_1 n mrs).
Proof.
  induction n as [n IH|n IH|]; intros mrs H; cbn [SpecFloat.iter_pos].
  - apply IH, IH, shr_1_nonneg, H.
  - apply IH, IH, H.
  - apply shr_1_nonneg, H.
Qed.

Lemma shr_fexp_nonneg prec emax m e l :
  0 <= m -> 0 <= shr_m (fst (shr_fexp prec emax m e l)).
Proof.
  intros H. unfold shr_fexp, shr.
  assert (H0 : 0 <= shr_m (shr_record_of_loc m l))
    by (destruct l as [|[]]; exact H).
  destruct (fexp prec emax (Zdigits2 m + e) - e); cbn [fst]; auto.
  apply iter_pos_shr_1_nonneg, H0.
Qed.

Lemma round_nearest_even_nonneg m l : 0 <= m -> 0 <= round_nearest_even m l.
Proof.
  intros H. unfold round_nearest_even.
  destruct l as [|[]]; try destruct (Z.even m); lia.
Qed.

Lemma binary_round_aux_sign prec emax sx mx ex lx :
  0 <= mx -> f32_sign (binary_round_aux prec emax sx mx ex lx) = Some sx.
Proof.
  intros H. unfold binary_round_aux.
  pose proof (shr_fexp_nonneg prec emax mx ex lx H) as H1.
  destruct (shr_fexp prec emax mx ex lx) as [mrs' e']. cbn [fst] in H1.
  pose proof (shr_fexp_nonneg prec emax _ e' loc_Exact
                (round_nearest_even_nonneg _ (loc_of_shr_record mrs') H1)) as H2.
  destruct (shr_fexp prec emax _ e' loc_Exact) as [mrs'' e'']. cbn [fst] in H2.
  destruct (shr_m mrs'') as [|q|q]; [reflexivity| |lia].
  destruct (e'' <=? emax - prec); reflexivity.
Qed.

Lemma f32_mul_100_sign (p : float32) :
  f32_sign (f32_mul p f32_100_0) = f32_sign p.
Proof.
  unfold f32_mul, f32_100_0.
  destruct p as [s|s| |s m e]; cbn [SFmul f32_sign]; rewrite ?xorb_false_r;
    try reflexivity.
  apply binary_round_aux_sign. lia.
Qed.

Section StepExtras.

Context {E : Type} `{Lib : BsecLibrary E}.

Lemma copy_outputs_filter_recognised returned o :
  copy_outputs (List.filter recognised returned) o = copy_outputs returned o.
Proof.
  revert o. induction returned as [|out returned IH]; intros o; [reflexivity|].
  cbn [List.filter]. unfold copy_outputs in *.
  destruct (recognised out) eqn:Hrec; cbn [fold_left]; rewrite IH.
  - reflexivity.
  - f_equal. unfold recognised in Hrec. unfold switch_sensor_id.
    destruct (out_sensor_id out); try reflexivity; discriminate Hrec.
Qed.


Lemma returned_for_last_match left_part a right_part :
  Forall (fun out => out_sensor_id out <> out_sensor_id a) right_part ->
  returned_for (out_sensor_id a) (left_part ++ a :: right_part) = Some a.
Proof.
  induction right_part as [|b r IH] using rev_ind; intros H.
  - replace (left_part ++ [a]) with (left_part ++ [a]) by reflexivity.
    rewrite returned_for_snoc.
    destruct (out_sensor_id a); cbn; try reflexivity. now rewrite Z.eqb_refl.
  - apply Forall_app in H as [Hr Hb]. apply Forall_inv in Hb.
    replace (left_part ++ a :: r ++ [b]) with ((left_part ++ a :: r) ++ [b])
      by (rewrite <- app_assoc; reflexivity).
    rewrite returned_for_snoc, IH by exact Hr.
    destruct (out_sensor_id b), (out_sensor_id a); cbn; try reflexivity; try congruence.
    destruct (Z.eqb_spec raw raw0); congruence.
Qed.

(** The cells after a successful step whose reported count is within the
    array. *)
Lemma step_success_result t h p g ts o (s : state E) (c : step_call) :
  step_calls (events_of (py_bsec_do_steps t h p g ts o) s) = [c] ->
  step_status c = BSEC_OK ->
  (Z.to_nat (step_n_outputs_out c) <= length (step_outputs c))%nat ->
  result_of (py_bsec_do_steps t h p g ts o) s =
  Some (0, copy_outputs (take (Z.to_nat (step_n_outputs_out c)) (step_outputs c))
             defaults).
Proof.
  step_cases t h p g ts o s.
  all: intros Hc Hst Hn; injection Hc as <-;
    cbn [step_status step_outputs step_n_outputs_out] in *.
  all: try congruence.
  all: rewrite for_outputs_copy in * by (cbn [Nat.add]; exact Hn).
  all: try discriminate.
  match goal with H : Some _ = Some _ |- _ => injection H as <- end.
  rewrite drop_0. reflexivity.
Qed.

(** X9: outputs whose identifier the [switch] has no label for are
    skipped: a successful step returns what the recognised outputs alone
    give, and the plain defaults when no returned output is recognised. *)
Theorem step_ignores_unrecognised_outputs t h p g ts o (s : state E) (c : step_call) :
  step_calls (events_of (py_bsec_do_steps t h p g ts o) s) = [c] ->
  step_status c = BSEC_OK ->
  (Z.to_nat (step_n_outputs_out c) <= length (step_outputs c))%nat ->
  let returned := take (Z.to_nat (step_n_outputs_out c)) (step_outputs c) in
  result_of (py_bsec_do_steps t h p g ts o) s
  = Some (0, overwrite_defaults (List.filter recognised returned))
  /\ (forallb (fun out => negb (recognised out)) returned = true ->
      result_of (py_bsec_do_steps t h p g ts o) s = Some (0, defaults)).
Proof.
  intros Hc Hst Hn returned.
  rewrite (step_success_result t h p g ts o s c Hc Hst Hn). fold returned.
  split.
  - rewrite <- copy_outputs_filter_recognised, copy_outputs_spec. reflexivity.
  - intros Hnone. rewrite <- copy_outputs_filter_recognised.
    replace (List.filter recognised returned) with (@nil bsec_output_t); [reflexivity|].
    clear -Hnone. induction returned as [|out r IH]; [reflexivity|].
    cbn [forallb List.filter] in *. apply andb_prop in Hnone as [H1 H2].
    destruct (recognised out); [discriminate H1 | exact (IH H2)].
Qed.

(** X10: after a successful [bsec_do_steps] nothing of what the caller
    had in the four cells survives: the step returns the same, and prints
    the same, for any two initial contents. *)
Theorem step_success_forgets_the_cells t h p g ts o o' (s : state E) (c : step_call) :
  step_calls (events_of (py_bsec_do_steps t h p g ts o) s) = [c] ->
  step_status c = BSEC_OK ->
  result_of (py_bsec_do_steps t h p g ts o) s
  = result_of (py_bsec_do_steps t h p g ts o') s
  /\ events_of (py_bsec_do_steps t h p g ts o) s
     = events_of (py_bsec_do_steps t h p g ts o') s.
Proof.
  unfold result_of, state_after, events_of.
  rewrite (py_bsec_do_steps_flat_eq t h p g ts o s),
          (py_bsec_do_steps_flat_eq t h p g ts o' s).
  unfold py_bsec_do_steps_flat.
  destruct (bsec_do_steps _ _ _ (engine s)) as [[[st outs] n'] e'].
  destruct (Z.eqb_spec st BSEC_OK); cbn [negb].
  - intros _ _. destruct (for_outputs _ _ _ _); split; reflexivity.
  - cbn [fst snd trace]; rewrite ?drop_app_length; cbn [step_calls flat_map app].
    intros Hc Hst; injection Hc as <-. cbn [step_status] in Hst. contradiction.
Qed.


(** X12: whenever [py_bsec_do_steps] returns, the returned code is the
    status of its [bsec_do_steps] call; it is 0 exactly on [BSEC_OK]. *)
Theorem step_returns_the_engine_status t h p g ts o (s : state E) (c : step_call)
    (r : Z) (o' : out_params) :
  step_calls (events_of (py_bsec_do_steps t h p g ts o) s) = [c] ->
  result_of (py_bsec_do_steps t h p g ts o) s = Some (r, o') ->
  r = step_status c /\ (r = 0 <-> step_status c = BSEC_OK).
Proof.
  step_cases t h p g ts o s.
  all: intros Hc Hr; injection Hc as <-; cbn [step_status].
  all: try discriminate Hr; injection Hr as <- <-.
  all: subst; unfold BSEC_OK in *; split; [reflexivity | tauto].
Qed.

(** X13: a step never touches the subscription: both statics are as
    before, the engine is moved by the one [bsec_do_steps] call and by
    nothing else, and no subscription update is made. *)
Theorem step_leaves_the_statics t h p g ts o (s : state E) :
  let s' := state_after (py_bsec_do_steps t h p g ts o) s in
  let evs := events_of (py_bsec_do_steps t h p g ts o) s in
  requested_virtual_sensors s' = requested_virtual_sensors s
  /\ n_requested_virtual_sensors s' = n_requested_virtual_sensors s
  /\ engine s' = snd (bsec_do_steps (marshalled_inputs t h p g ts) 4 8 (engine s))
  /\ subscription_calls evs = []
  /\ length (library_calls evs) = 1%nat.
Proof.
  intros s' evs; subst s' evs.
  unfold result_of, state_after, events_of.
  rewrite (py_bsec_do_steps_flat_eq t h p g ts o s).
  unfold py_bsec_do_steps_flat.
  destruct (bsec_do_steps _ _ _ (engine s)) as [[[st outs] n'] e'].
  destruct (negb (st =? BSEC_OK)); [|destruct (for_outputs _ _ _ _)].
  all: cbn [fst snd trace requested_virtual_sensors n_requested_virtual_sensors engine];
    rewrite ?drop_app_length; repeat split.
Qed.

(** X14: when an identifier is returned more than once, the last output
    carrying it is the one copied out (IAQ with its accuracy); an output
    without a label changes nothing. *)
Theorem later_output_wins t h p g ts o (s : state E) (c : step_call)
    (earlier later : list bsec_output_t) (a : bsec_output_t) :
  step_calls (events_of (py_bsec_do_steps t h p g ts o) s) = [c] ->
  step_status c = BSEC_OK ->
  (Z.to_nat (step_n_outputs_out c) <= length (step_outputs c))%nat ->
  take (Z.to_nat (step_n_outputs_out c)) (step_outputs c) = earlier ++ a :: later ->
  Forall (fun out => out_sensor_id out <> out_sensor_id a) later ->
  exists o',
    result_of (py_bsec_do_steps t h p g ts o) s = Some (0, o')
    /\ match out_sensor_id a with
       | BSEC_OUTPUT_IAQ => iaq o' = out_signal a /\ iaq_accuracy o' = out_accuracy a
       | BSEC_OUTPUT_CO2_EQUIVALENT => co2_equivalent o' = out_signal a
       | BSEC_OUTPUT_BREATH_VOC_EQUIVALENT => breath_voc_equivalent o' = out_signal a
       | _ => o' = overwrite_defaults (earlier ++ later)
       end.
Proof.
  intros Hc Hst Hn Hret Hlater.
  rewrite (step_success_result t h p g ts o s c Hc Hst Hn), Hret.
  eexists; split; [reflexivity|].
  pose proof (returned_for_last_match earlier a later Hlater) as Hlast.
  assert (Hskip : recognised a = false ->
                  copy_outputs (earlier ++ a :: later) defaults
                  = overwrite_defaults (earlier ++ later)).
  { intros Hrec.
    rewrite <- (copy_outputs_filter_recognised (earlier ++ a :: later)).
    rewrite List.filter_app. cbn [List.filter]. rewrite Hrec, <- List.filter_app.
    rewrite copy_outputs_filter_recognised, copy_outputs_spec. reflexivity. }
  unfold recognised in Hskip.
  destruct (out_sensor_id a) eqn:Hid; try (apply Hskip; reflexivity).
  all: rewrite copy_outputs_spec, Hlast; cbn; repeat split; reflexivity.
Qed.

(** X15: the final-values line is printed exactly when the step returns
    0, and it shows the four values handed back. *)
Theorem final_values_line_matches_result t h p g ts o (s : state E) a b d e :
  In (Printf (Msg_final_values a b d e)) (events_of (py_bsec_do_steps t h p g ts o) s)
  <-> result_of (py_bsec_do_steps t h p g ts o) s = Some (0, mk_out_params a b d e).
Proof.
  step_cases t h p g ts o s.
  all: cbn [In]; split.
  all: try (intros [H|[H|H]]; try discriminate H; contradiction).
  all: try (intros H; discriminate H).
  - intros [H|[H|[H|H]]]; try discriminate H; try contradiction.
    injection H as <- <- <- <-. destruct o0; reflexivity.
  - intros H; injection H as ->. right; right; left. reflexivity.
  - intros H; injection H as -> _. unfold BSEC_OK in *; contradiction.
Qed.

(** X16: the pressure handed to the library has the sign of the argument
    and is NaN exactly when the argument is: the multiplication by 100.0f
    neither validates nor repairs the input. *)
Theorem pressure_signal_keeps_sign_and_nan t h p g ts o (s : state E) :
  exists c x,
    step_calls (events_of (py_bsec_do_steps t h p g ts o) s) = [c]
    /\ step_inputs c !! 2%nat = Some x
    /\ in_sensor_id x = BSEC_INPUT_PRESSURE
    /\ f32_sign (in_signal x) = f32_sign p
    /\ f32_is_nan (in_signal x) = f32_is_nan p.
Proof.
  step_cases t h p g ts o s.
  all: eexists _, _; split; [reflexivity|]; split; [reflexivity|];
    split; [reflexivity|]; cbn [in_signal].
  all: pose proof (f32_mul_100_sign p) as Hs; split; [exact Hs|].
  all: destruct (f32_mul p f32_100_0), p; cbn in Hs |- *; congruence.
Qed.

End StepExtras.

(** * [py_bsec_get_version] *)

Section VersionFacts.

Context {E : Type} `{Lib : BsecLibrary E} `{Ver : BsecVersion E}.

(** X17: over a library whose version query does not move the engine,
    [py_bsec_get_version] returns the four fields of the version record in
    the order major, minor, major bugfix, minor bugfix and leaves the whole
    state as it was, so that querying the version before [py_bsec_init] or
    [py_bsec_do_steps] changes nothing of what they do. *)
Theorem version_query_is_transparent (s : state E) :
  (forall e, snd (bsec_get_version e) = e) ->
  let v := fst (bsec_get_version (engine s)) in
  py_bsec_get_version s
  = (Some (mk_version_cells (ver_major v) (ver_minor v)
             (ver_major_bugfix v) (ver_minor_bugfix v)), s)
  /\ (py_bsec_get_version ≫= fun _ => py_bsec_init) s = py_bsec_init s
  /\ forall t h p g ts o,
       (py_bsec_get_version ≫= fun _ => py_bsec_do_steps t h p g ts o) s
       = py_bsec_do_steps t h p g ts o s.
Proof.
  intros Hro v; subst v.
  assert (Hrun : py_bsec_get_version s
                 = (Some (mk_version_cells
                            (ver_major (fst (bsec_get_version (engine s))))
                            (ver_minor (fst (bsec_get_version (engine s))))
                            (ver_major_bugfix (fst (bsec_get_version (engine s))))
                            (ver_minor_bugfix (fst (bsec_get_version (engine s))))), s)).
  { unfold py_bsec_get_version, library_call. rewrite bind_run.
    specialize (Hro (engine s)).
    destruct (bsec_get_version (engine s)) as [v e']. cbn [fst snd] in *. subst e'.
    destruct s; reflexivity. }
  split; [exact Hrun|]. split; [|intros t h p g ts o]; rewrite bind_run, Hrun; reflexivity.
Qed.

End VersionFacts.

(** * The further properties on the scripted engine *)

Lemma init_statics_follow_last_subscription_witness :
  let s0 := scripted_state [0; 0; -1; 0] [] 0 in
  let s' := state_after (py_bsec_init (Lib := scripted_library)) s0 in
  requested_virtual_sensors s'
  = bundle (BSEC_SAMPLE_RATE_SCAN (BsecLibrary := scripted_library))
  /\ n_requested_virtual_sensors s' = 8.
Proof.
  intros s0 s'; subst s'.
  destruct (init_statics_follow_last_subscription (Lib := scripted_library) s0
              eq_refl) as (_ & _ & H).
  destruct (H (mk_subscription_call
                 (bundle (BSEC_SAMPLE_RATE_SCAN (BsecLibrary := scripted_library)))
                 8 0 0 0)
              ltac:(vm_compute; reflexivity)) as (Harr & Hn & _).
  split; [exact Harr | exact Hn].
Defined.

Lemma init_ignores_previous_statics_witness :
  let e0 := mk_scripted [0; 0; -1; 0] [] 0 in
  let s1 := initial_state e0 in
  let s2 := mk_state e0
              (bundle (BSEC_SAMPLE_RATE_ULP (BsecLibrary := scripted_library))) 8
              [Printf Msg_LP_success] in
  result_of (py_bsec_init (Lib := scripted_library)) s1
  = result_of (py_bsec_init (Lib := scripted_library)) s2
  /\ events_of (py_bsec_init (Lib := scripted_library)) s1
     = events_of (py_bsec_init (Lib := scripted_library)) s2.
Proof.
  intros e0 s1 s2.
  destruct (init_ignores_previous_statics (Lib := scripted_library) s1 s2
              eq_refl eq_refl eq_refl) as (Hr & Hev & _).
  split; [exact Hr | exact Hev].
Defined.

Lemma init_returns_zero_iff_accepted_witness :
  let s0 := scripted_state [0; 0; -1; -2; 0] [] 0 in
  result_of (py_bsec_init (Lib := scripted_library)) s0 = Some 0.
Proof.
  intros s0.
  destruct (init_returns_zero_iff_accepted (Lib := scripted_library) s0 eq_refl)
    as [_ H].
  apply H.
  exists (mk_subscription_call
            (bundle (BSEC_SAMPLE_RATE_ULP (BsecLibrary := scripted_library)))
            8 0 0 0).
  split; vm_compute; reflexivity.
Defined.

Lemma subscription_capacity_chain_witness :
  let s0 := scripted_state [0; 0; -1; -2; -3] [] 0 in
  let lp := mk_subscription_call
              (bundle (BSEC_SAMPLE_RATE_LP (BsecLibrary := scripted_library)))
              8 8 (-1) 0 in
  let scan := mk_subscription_call
                (bundle (BSEC_SAMPLE_RATE_SCAN (BsecLibrary := scripted_library)))
                8 0 (-2) 0 in
  sub_n_required_in lp = BSEC_MAX_PHYSICAL_SENSOR (BsecLibrary := scripted_library)
  /\ sub_n_required_in scan = sub_n_required_out lp.
Proof.
  intros s0 lp scan.
  destruct (subscription_capacity_chain (Lib := scripted_library) s0 eq_refl)
    as [Hfirst Hnext].
  split.
  - apply Hfirst. vm_compute; reflexivity.
  - apply (Hnext 0%nat); vm_compute; reflexivity.
Defined.

Lemma success_lines_announce_LP_and_SCAN_only_witness :
  let s0 := scripted_state [0; 0; 0] [] 0 in
  In (Printf Msg_LP_success) (events_of (py_bsec_init (Lib := scripted_library)) s0).
Proof.
  intros s0.
  destruct (success_lines_announce_LP_and_SCAN_only (Lib := scripted_library) s0
              eq_refl) as [[_ H] _].
  apply H.
  exists (mk_subscription_call
            (bundle (BSEC_SAMPLE_RATE_LP (BsecLibrary := scripted_library)))
            8 8 0 0).
  split; vm_compute; reflexivity.
Defined.

Lemma init_library_calls_in_order_witness :
  let s0 := scripted_state [0; 0; -1; 0] [] 0 in
  length (library_calls (events_of (py_bsec_init (Lib := scripted_library)) s0))
  = 4%nat.
Proof.
  intros s0.
  destruct (init_library_calls_in_order (Lib := scripted_library) s0 eq_refl)
    as (st & Hst & _ & Hok).
  destruct (Hok ltac:(rewrite <- Hst; reflexivity)) as (cst & rest & Hcalls & _ & _).
  rewrite Hcalls. vm_compute in Hcalls. injection Hcalls as _ _ <-. reflexivity.
Defined.

Lemma result_lines_report_the_status_witness :
  let s0 := scripted_state [0; 0; -1; 0] [] 0 in
  In (Printf (Msg_LP_result (-1)))
     (events_of (py_bsec_init (Lib := scripted_library)) s0).
Proof.
  intros s0.
  destruct (result_lines_report_the_status (Lib := scripted_library) s0 (-1)
              eq_refl) as [[_ H] _].
  apply H.
  exists (mk_subscription_call
            (bundle (BSEC_SAMPLE_RATE_LP (BsecLibrary := scripted_library)))
            8 8 (-1) 0).
  split; vm_compute; reflexivity.
Defined.

Lemma reinit_starts_again_at_LP_witness :
  let s0 := scripted_state [0; 0; -1; -2; -3; 0; 0; 0] [] 0 in
  let c := mk_subscription_call
             (bundle (BSEC_SAMPLE_RATE_LP (BsecLibrary := scripted_library)))
             8 8 0 0 in
  subscription_calls
    (events_of (py_bsec_init (Lib := scripted_library))
       (state_after (py_bsec_init (Lib := scripted_library)) s0)) !! 0%nat = Some c
  /\ sub_n_required_in c = BSEC_MAX_PHYSICAL_SENSOR (BsecLibrary := scripted_library).
Proof.
  intros s0 c.
  assert (Hc : subscription_calls
                 (events_of (py_bsec_init (Lib := scripted_library))
                    (state_after (py_bsec_init (Lib := scripted_library)) s0))
                 !! 0%nat = Some c) by (vm_compute; reflexivity).
  split; [exact Hc|].
  exact (proj2 (proj2 (reinit_starts_again_at_LP (Lib := scripted_library) s0 c
                         eq_refl Hc))).
Defined.

Lemma step_ignores_unrecognised_outputs_witness :
  let outs := [mk_output BSEC_OUTPUT_STATIC_IAQ f32_42_0 3;
               mk_output (BSEC_OUTPUT_other 99) f32_22_5 1] in
  let s0 := scripted_state [0] outs 2 in
  result_of (py_bsec_do_steps (Lib := scripted_library)
               f32_22_5 f32_45_0 f32_1013_25 f32_50000_0 1000 sentinels) s0
  = Some (0, defaults).
Proof.
  intros outs s0.
  destruct (step_ignores_unrecognised_outputs (Lib := scripted_library)
              f32_22_5 f32_45_0 f32_1013_25 f32_50000_0 1000 sentinels s0
              (mk_step_call
                 (marshalled_inputs f32_22_5 f32_45_0 f32_1013_25 f32_50000_0 1000)
                 4 8 0 outs 2)
              ltac:(vm_compute; reflexivity) eq_refl ltac:(vm_compute; lia))
    as [_ Hnone].
  exact (Hnone eq_refl).
Defined.

Lemma step_success_forgets_the_cells_witness :
  let s0 := scripted_state [0] [mk_output BSEC_OUTPUT_CO2_EQUIVALENT f32_400_0 0] 1 in
  result_of (py_bsec_do_steps (Lib := scripted_library)
               f32_22_5 f32_45_0 f32_1013_25 f32_50000_0 1000 sentinels) s0
  = result_of (py_bsec_do_steps (Lib := scripted_library)
                 f32_22_5 f32_45_0 f32_1013_25 f32_50000_0 1000 defaults) s0.
Proof.
  intros s0.
  exact (proj1 (step_success_forgets_the_cells (Lib := scripted_library)
                  f32_22_5 f32_45_0 f32_1013_25 f32_50000_0 1000 sentinels defaults
                  s0
                  (mk_step_call
                     (marshalled_inputs f32_22_5 f32_45_0 f32_1013_25 f32_50000_0
                        1000)
                     4 8 0 [mk_output BSEC_OUTPUT_CO2_EQUIVALENT f32_400_0 0] 1)
                  ltac:(vm_compute; reflexivity) eq_refl)).
Defined.


Lemma step_returns_the_engine_status_witness :
  let s0 := scripted_state [-7] [] 0 in
  let c := mk_step_call
             (marshalled_inputs f32_22_5 f32_45_0 f32_1013_25 f32_50000_0 1000)
             4 8 (-7) [] 0 in
  -7 = step_status c /\ (-7 = 0 <-> step_status c = BSEC_OK).
Proof.
  intros s0 c.
  exact (step_returns_the_engine_status (Lib := scripted_library)
           f32_22_5 f32_45_0 f32_1013_25 f32_50000_0 1000 sentinels s0 c
           (-7) sentinels
           ltac:(vm_compute; reflexivity) ltac:(vm_compute; reflexivity)).
Defined.

Lemma later_output_wins_witness :
  let first := mk_output BSEC_OUTPUT_IAQ f32_25_0 1 in
  let second := mk_output BSEC_OUTPUT_IAQ f32_42_0 3 in
  let s0 := scripted_state [0] [first; second] 2 in
  exists o',
    result_of (py_bsec_do_steps (Lib := scripted_library)
                 f32_22_5 f32_45_0 f32_1013_25 f32_50000_0 1000 sentinels) s0
    = Some (0, o')
    /\ iaq o' = f32_42_0 /\ iaq_accuracy o' = 3.
Proof.
  intros first second s0.
  exact (later_output_wins (Lib := scripted_library)
           f32_22_5 f32_45_0 f32_1013_25 f32_50000_0 1000 sentinels s0
           (mk_step_call
              (marshalled_inputs f32_22_5 f32_45_0 f32_1013_25 f32_50000_0 1000)
              4 8 0 [first; second] 2)
           [first] [] second
           ltac:(vm_compute; reflexivity) eq_refl ltac:(vm_compute; lia)
           eq_refl ltac:(constructor)).
Defined.

Lemma version_query_is_transparent_witness :
  let s0 := scripted_state [0; 0; 0] [] 0 in
  py_bsec_get_version (Ver := scripted_version) s0
  = (Some (mk_version_cells 1 4 8 0), s0)
  /\ (py_bsec_get_version (Ver := scripted_version)
      ≫= fun _ => py_bsec_init (Lib := scripted_library)) s0
     = py_bsec_init (Lib := scripted_library) s0.
Proof.
  intros s0.
  destruct (version_query_is_transparent
              (Lib := scripted_library) (Ver := scripted_version) s0
              (fun e => eq_refl)) as (Hrun & Hinit & _).
  split; [exact Hrun | exact Hinit].
Defined.
